(* ===== verification/_CoqProject ===== *)
-Q . S2P
Prelude.v
Django.v
Companies.v
Users.v
Api.v
Products.v
Warehouses.v
Orders.v
Supplies.v
Shipments.v
Services.v
Reports.v
Database.v
Queries.v
Cascades.v
Constraints.v
Validation.v
