(* ===== verification/Prelude.v ===== *)
(** * lite-wms-system: the Django schema of a fulfilment-by-seller platform

    The repository ([src/backend]) is a Django project whose behaviour is
    its schema: ten apps, each a [models.py] of model classes with their
    fields, validators, choice lists, foreign keys with an [on_delete]
    rule, unique constraints and [__str__].  There are no views or
    services in [src/]: what the code does is what Django does with these
    declarations when an instance is validated ([full_clean]), saved
    ([save()] of a new or of a fetched instance) or deleted (the
    [Collector] with its [CASCADE] and [SET_NULL] rules).  This development
    models every model class, and the three database operations over a
    store that holds rows of all of them, and proves what the declarations
    guarantee and what they do not.

    ** Files

    - [Prelude.v] (this file): the [res] error sum with [let!] and
      [check!] notations in [wms_scope], the hint database [wms], the
      tactic [res_simpl], list lemmas, and the reflexive-transitive closure
      [star] of a step relation.
    - [Django.v]: the framework's part of the models.  The tag type
      [model] (one constructor per model class), [on_delete], foreign keys
      ([fk], with [null_fk] for [SET_NULL]) and unique constraints
      ([unique]); the field validators: [char_field] ([max_length] counted
      in code points of the UTF-8 string, as Python's [len]), [text_field],
      [email_field], [int_field] (the 32-bit range of [IntegerField] in
      PostgreSQL), [decimal_field] (Django's [DecimalValidator] on the
      sign/digits/exponent of a [Decimal]), [choice_field], and the enum
      helpers for choice lists.  The type class [Model] states what every
      model class provides to the database (its foreign keys, their shape,
      its unique values, [clean_fields], the [auto_now]/[auto_now_add]
      stamping of [pre_save], the [SET_NULL] update) with the laws the
      database's proofs use.
    - One file per app, [Companies.v] ... [Reports.v], with a [Module] per
      class of its [models.py]: [Record t] with every field in source
      order (a foreign key as the id [Z] it stores, [option Z] when
      [null=True]; a [DecimalField] as [decimal]; a [DateTimeField] as a
      [Z] timestamp), [create] with the fields' defaults, [clean_fields]
      (the validators of every field but the foreign keys, whose
      existence check [full_clean] in [Validation.v] runs from
      [foreign_keys]), [foreign_keys],
      [unique_keys] ([unique=True] and [Meta.unique_together]), [pre_save],
      [set_null], [str] (the [__str__]) and the [Model] instance.  Choice
      lists are kept as the source's tuples and, for the statuses, also as
      an enum with [status_value]/[status_of_value].
    - [Database.v]: the store, a [gmap] from (model, id) to a row of any
      model (a [sigT] over the tag) and one id sequence per model;
      [insert] (the [INSERT] of [save()] on a new instance: [pre_save],
      then every foreign key and unique constraint checked, raising
      [IntegrityFk]/[IntegrityUnique] as the database's [IntegrityError])
      and [update] (the [UPDATE] of [save()] on a fetched instance).
      [wf] is the database invariant (keys match their model, every
      foreign key points to a stored row, unique values are unique); the
      executable [wf_b] decides it and gives the [Decision] instance.
    - [Queries.v]: reads of one table ([query], Django's
      [objects.filter]), [product.images.all()] sorted by
      [ProductImage.Meta.ordering] ([product_images]), the forward
      descriptor of a foreign key ([related], raising [DoesNotExist]) and
      [str()] of any stored instance ([row_str]), which fetches the
      related objects each [__str__] reads.
    - [Cascades.v]: [delete] (the [Collector]: [collect] gathers the rows
      reached by [CASCADE] chains, [null_refs] applies the [SET_NULL]
      updates), its abstract specification, the inductive relation
      [cascades], the static cascade graph of the schema
      ([cascade_models], computed) and what a delete of a warehouse, a
      product or a company does to orders and order items.
    - [Constraints.v]: the reverse accessor [order.shipment_links]
      ([shipment_links]), what the declared constraints admit (an order
      in two shipments, a storage unit that is its own parent) and what a
      warehouse delete does to the shipments of orders.
    - [Validation.v]: Django's [full_clean] (the field validators of each
      model's [clean_fields], [ForeignKey.validate], which requires every
      non-NULL key to name a row, and [validate_unique]) and what it
      accepts of orders, order items,
      supply items and inventory items.

    ** Theorems

    - Database invariant: [insert_preserves_wf], [update_preserves_wf],
      [delete_preserves_wf]; functional behaviour of [delete]
      ([delete_removes_exactly]); the error on a replayed order
      ([order_insert_replay]); the identities the design names
      ([order_identified_by_external_id],
      [storage_unit_code_identifies]); the [auto_now_add]/[auto_now]
      stamps across an insert and a later save ([order_timestamps]).
    - Refinement: [collected_iff_cascades], the fuelled [collect]
      computes exactly the [cascades] relation, so the fuel never cuts a
      delete short.
    - Cascades: [warehouse_delete_keeps_orders],
      [product_delete_removes_order_items], [company_delete_removes_orders].
    - Constraints: [order_links_to_second_shipment],
      [storage_unit_own_parent], [warehouse_delete_unlinks_shipments].
    - Choices: [order_status_roundtrip] in [Orders.v], the status enum is
      the [ORDER_STATUSES] tuple.
    - Validation: [order_clean_status], [order_total_price_bound],
      [supply_item_clean_quantities], [order_item_clean_quantity],
      [inventory_item_discrepancy_unchecked].
    - Queries: [row_str_total], no [__str__] of a stored instance raises
      in a well-formed database.
    Each theorem with hypotheses has a witness on the sample database
    [sample_db] of [Database.v] (eleven rows: a company, a marketplace, a
    warehouse, a product, an order with one item, two shipments, the link
    of the order to the first, a storage unit and a stock count), whose
    [wf] is decided by [wf_b] ([wf_b_sound]).

    ** Fuel and bounds

    [collect] runs with fuel [size (rows d) + 1]: each round either adds a
    row of [d] to the collected set or stops, so the set is closed before
    the fuel runs out ([collect_closed]).  [ndigits] counts decimal digits
    with fuel [N.size n], an upper bound of the number of digits
    ([ndigits_spec]).  Integer fields are checked against the 32-bit range
    [-2^31 .. 2^31-1] of the PostgreSQL [integer] column Django maps
    [IntegerField] to.

    ** Assumptions and what is not modelled

    - [auto_now_add] and [auto_now] stamp with one time [now], where
      Django calls [timezone.now()] once per field.
    - Foreign keys and unique constraints are checked at the [INSERT] or
      [UPDATE] itself (the database has no deferred constraints here);
      [save()] does not run [full_clean], so validation is a separate
      function, as in Django.
    - An id consumed by a failed [INSERT] is not modelled (the sequence
      advances only on success); [update] requires the row to exist,
      raising [DoesNotExist] otherwise.
    - A table is read in key order ([map_to_list]); rows that tie on a
      [Meta.ordering] field come in an order the database chooses, and no
      theorem depends on it.
    - The per-model [str] of a model whose [__str__] reads a related row
      ([self.product.name]) takes the related value as an argument;
      [row_str] in [Queries.v] fetches it from the database.
    - The [EmailValidator] and [URLValidator] regular expressions are not
      modelled, only [max_length]; translated labels are kept as the
      source's strings, untranslated.
    - [FileField]/[ImageField] storage, the inherited fields of
      [AbstractUser], [Meta.ordering], settings, migrations and admin are
      not modelled.
    - [spec.md] describes a stock ledger, a reservation manager, supply,
      shipment and inventory state machines and a marketplace reconciler;
      [src/] has none of them (only the models), so they are not part of
      this development yet.  The findings of the project manifest record
      where the schema falls short of what the specification asks. *)

From Stdlib Require Export ZArith Lia.
From stdpp Require Export base gmap strings list pretty.

Declare Scope wms_scope.
Delimit Scope wms_scope with wms.
Open Scope wms_scope.

(** ** Results of fallible operations *)

(** An operation of the modelled code either returns a value or raises one
    of the errors of its component; [res] is that sum, with its bind. *)
Inductive res (A E : Type) : Type :=
| Ok (a : A)
| Err (e : E).
Arguments Ok {A E} a.
Arguments Err {A E} e.

Definition res_bind {A B E : Type} (m : res A E) (f : A -> res B E) : res B E :=
  match m with
  | Ok a => f a
  | Err e => Err e
  end.

Definition res_map {A B E : Type} (f : A -> B) (m : res A E) : res B E :=
  match m with
  | Ok a => Ok (f a)
  | Err e => Err e
  end.

Definition is_ok {A E : Type} (m : res A E) : bool :=
  match m with Ok _ => true | Err _ => false end.

Notation "'let!' x ':=' m 'in' k" := (res_bind m (fun x => k))
  (at level 10, x name, m at level 100, k at level 200) : wms_scope.

(** [check! b or e ;; k] continues with [k] when the guard [b] holds and
    raises [e] otherwise: the early [raise] of the modelled code. *)
Notation "'check!' b 'or' e ';;' k" := (if b then k else Err e)
  (at level 10, b at level 100, e at level 100, k at level 200) : wms_scope.

(** ** Tactics shared by the development *)

Create HintDb wms discriminated.

(** Split the hypotheses that say a bind, a guard or a match returned [Ok]. *)
Ltac res_simpl :=
  repeat match goal with
  | H : Ok _ = Ok _ |- _ => injection H as H
  | H : Err _ = Ok _ |- _ => discriminate H
  | H : Ok _ = Err _ |- _ => discriminate H
  | H : res_bind ?m _ = Ok _ |- _ =>
      let E := fresh "E" in destruct m eqn:E; simpl in H; [| discriminate H]
  | H : (if ?b then _ else _) = Ok _ |- _ =>
      let E := fresh "E" in destruct b eqn:E; [| discriminate H]
  end.

(** ** Generic lemmas on results *)

Lemma res_bind_Ok {A B E : Type} (m : res A E) (f : A -> res B E) (b : B) :
  res_bind m f = Ok b <-> exists a, m = Ok a /\ f a = Ok b.
Proof.
  split.
  - destruct m as [a|e]; simpl; [eauto | discriminate].
  - intros (a & -> & Hf). exact Hf.
Qed.

(** ** Generic lemmas on boolean list tests *)

Lemma forallb_In_iff {A : Type} (p : A -> bool) (l : list A) :
  forallb p l = true <-> forall x, In x l -> p x = true.
Proof. apply forallb_forall. Qed.

Lemma existsb_In_iff {A : Type} (p : A -> bool) (l : list A) :
  existsb p l = true <-> exists x, In x l /\ p x = true.
Proof. apply existsb_exists. Qed.

Lemma find_None_iff {A : Type} (p : A -> bool) (l : list A) :
  find p l = None <-> forall x, In x l -> p x = false.
Proof.
  split; [apply find_none|].
  induction l as [|a l IH]; simpl; [done|]. intros H.
  rewrite (H a (or_introl eq_refl)). apply IH. auto.
Qed.

(** ** Transition systems

    The reflexive-transitive closure of a step relation, used by every
    state machine of the development for reachability. *)
Section Star.
Context {A : Type} (R : A -> A -> Prop).

Inductive star : A -> A -> Prop :=
| star_refl a : star a a
| star_step a b c : R a b -> star b c -> star a c.

Lemma star_one a b : R a b -> star a b.
Proof. intros H. eapply star_step; [exact H | apply star_refl]. Qed.

Lemma star_trans a b c : star a b -> star b c -> star a c.
Proof. induction 1; eauto using star. Qed.

(** An invariant of every step is an invariant of every run. *)
Lemma star_invariant (P : A -> Prop) :
  (forall a b, P a -> R a b -> P b) -> forall a b, star a b -> P a -> P b.
Proof. intros Hstep a b Hs. induction Hs; eauto. Qed.
End Star.

#[export] Hint Constructors star : wms.
