(* ===== verification/Django.v ===== *)
(** * Django's model layer, as the repository's models.py files use it

    The repository declares its data as Django models.  This file models
    the parts of Django those declarations rely on: the registry of model
    classes ([model]), [ForeignKey] with its [on_delete] policy ([fk]),
    [unique=True] and [unique_together] ([unique]), the validation that
    [Model.full_clean] runs on each field type, [choices], and the
    [Model] interface that every model class of the repository implements
    (instances in the per-app files) and that the database of
    [Database.v] is written and proved against. *)

From S2P Require Import Prelude.

(** ** The registry of model classes *)

(** One tag per model class of the repository, used as the target of a
    foreign key and as the table part of a primary key. *)
Inductive model :=
| MCompany | MUser | MMarketplace
| MProduct | MProductImage | MProductMarketplace
| MWarehouse | MStorageUnit
| MOrder | MOrderItem
| MSupply | MSupplyItem | MSupplyDocument
| MShipment | MShipmentOrder | MShipmentDocument
| MService | MServiceRequest | MServiceRequestItem
| MReport | MInventory | MInventoryItem.

Definition all_models : list model :=
  [MCompany; MUser; MMarketplace; MProduct; MProductImage; MProductMarketplace;
   MWarehouse; MStorageUnit; MOrder; MOrderItem; MSupply; MSupplyItem;
   MSupplyDocument; MShipment; MShipmentOrder; MShipmentDocument; MService;
   MServiceRequest; MServiceRequestItem; MReport; MInventory; MInventoryItem].

#[export] Instance model_eq_dec : EqDecision model.
Proof. solve_decision. Defined.

Definition model_index (m : model) : nat :=
  default 0%nat (fst <$> list_find (fun m' => m' = m) all_models).

Definition model_of_index (n : nat) : model := default MCompany (all_models !! n).

Lemma model_of_index_index m : model_of_index (model_index m) = m.
Proof. destruct m; reflexivity. Qed.

#[export] Instance model_countable : Countable model :=
  inj_countable' model_index model_of_index model_of_index_index.

(** ** Foreign keys *)

Inductive on_delete := CASCADE | SET_NULL.

#[export] Instance on_delete_eq_dec : EqDecision on_delete.
Proof. solve_decision. Defined.

(** A foreign key of a row: the field's name, the model it points to, its
    [on_delete] policy and the stored id (the [<name>_id] column; [None]
    for a NULL of a [null=True] key). *)
Record fk := mk_fk {
  fk_name : string;
  fk_to : model;
  fk_on_delete : on_delete;
  fk_val : option Z
}.

(** The declaration of a foreign key, without the value a row stores. *)
Definition fk_sig (f : fk) : string * model * on_delete :=
  (fk_name f, fk_to f, fk_on_delete f).

(** What [on_delete=SET_NULL] does to the key named [n]: NULL it; a
    [CASCADE] key is never nulled. *)
Definition null_fk (n : string) (f : fk) : fk :=
  match fk_on_delete f with
  | SET_NULL => if String.eqb (fk_name f) n then mk_fk (fk_name f) (fk_to f) SET_NULL None else f
  | CASCADE => f
  end.

Lemma null_fk_sig n f : fk_sig (null_fk n f) = fk_sig f.
Proof.
  destruct f as [nm to [] v]; unfold null_fk; simpl; [done|].
  by destruct (String.eqb nm n).
Qed.

Lemma null_fk_all_cascade n (l : list fk) :
  Forall (fun f => fk_on_delete f = CASCADE) l -> map (null_fk n) l = l.
Proof.
  induction 1 as [|f l Hf _ IH]; [done|]. simpl. rewrite IH.
  unfold null_fk. by rewrite Hf.
Qed.

(** ** Unique constraints *)

(** A value of a column that takes part in a unique constraint. *)
Inductive ukey := UStr (s : string) | UId (z : Z).

#[export] Instance ukey_eq_dec : EqDecision ukey.
Proof. solve_decision. Defined.

(** A unique constraint of a row: its name (the field of [unique=True],
    or the fields of [unique_together]) and the row's values there. *)
Record unique := mk_unique { uq_name : string; uq_key : list ukey }.

#[export] Instance unique_eq_dec : EqDecision unique.
Proof. solve_decision. Defined.

(** ** Field validation ([Field.clean], run by [Model.full_clean]) *)

(** Python's [len] of a [str] counts code points; a Rocq string holds the
    UTF-8 bytes, so a code point is a byte that is not a continuation
    byte ([10xxxxxx]). *)
Definition is_cont_byte (a : Ascii.ascii) : bool :=
  (N.land (Ascii.N_of_ascii a) 192 =? 128)%N.

Fixpoint char_len (s : string) : nat :=
  match s with
  | EmptyString => 0
  | String a s' => (if is_cont_byte a then 0 else 1) + char_len s'
  end.

(** [CharField(max_length=m, blank=b)]: the empty string is refused unless
    [blank=True] (and then it skips the other validators); otherwise
    [MaxLengthValidator(m)]. *)
Definition char_field (max_length : nat) (blank : bool) (v : string) : bool :=
  if String.eqb v "" then blank else (char_len v <=? max_length)%nat.

(** [TextField(blank=b)]: no length limit. *)
Definition text_field (blank : bool) (v : string) : bool :=
  if String.eqb v "" then blank else true.

(** A [null=True, blank=True] field: NULL is accepted, a value is checked. *)
Definition opt_field {A : Type} (check : A -> bool) (o : option A) : bool :=
  match o with None => true | Some v => check v end.

(** [EmailField]: a [CharField] of [max_length=254]; the address syntax that
    [EmailValidator] also checks is not modelled (every string of the
    right length passes). *)
Definition email_field (blank : bool) (v : string) : bool := char_field 254 blank v.

(** [IntegerField]: the range [integer_field_range] gives a 32-bit column. *)
Definition int_min : Z := -2147483648.
Definition int_max : Z := 2147483647.
Definition int_field (z : Z) : bool := (int_min <=? z)%Z && (z <=? int_max)%Z.

(** [DecimalField(max_digits, decimal_places)].  A Python [Decimal] is a
    sign, a coefficient (its digit tuple) and an exponent; NaN and the
    infinities, which the validator refuses, are not represented. *)
Record decimal := mk_decimal { dec_neg : bool; dec_coeff : N; dec_exp : Z }.

(** The length of the digit tuple of a coefficient ([(0,)] for zero). *)
Fixpoint ndigits_go (fuel : nat) (n : N) : nat :=
  match fuel with
  | O => 1
  | S f => if (n <? 10)%N then 1 else S (ndigits_go f (n / 10)%N)
  end.

Definition ndigits (n : N) : nat := ndigits_go (N.to_nat (N.size n)) n.

(** [DecimalValidator.__call__]: [digits], [decimals] and [whole_digits]
    computed from the tuple as Django does, then the three limits. *)
Definition decimal_field (max_digits decimal_places : nat) (d : decimal) : bool :=
  let len := ndigits (dec_coeff d) in
  let '(digits, decimals) :=
    if (0 <=? dec_exp d)%Z
    then ((if (dec_coeff d =? 0)%N then len else len + Z.to_nat (dec_exp d))%nat, 0%nat)
    else let a := Z.to_nat (- dec_exp d) in
         if (len <? a)%nat then (a, a) else (len, a) in
  (digits <=? max_digits)%nat && (decimals <=? decimal_places)%nat &&
  (digits - decimals <=? max_digits - decimal_places)%nat.

(** [choices]: the stored value must be the first component of a pair of
    the list, and, the field not being blank, must not be empty. *)
Definition valid_choice (choices : list (string * string)) (v : string) : bool :=
  existsb (fun p => String.eqb p.1 v) choices.

Definition choice_field (max_length : nat) (choices : list (string * string))
    (v : string) : bool :=
  char_field max_length false v && valid_choice choices v.

(** [get_FOO_display]: the label of the stored value, or the value itself
    when it is not one of the choices. *)
Definition display (choices : list (string * string)) (v : string) : string :=
  match find (fun p => String.eqb p.1 v) choices with
  | Some p => p.2
  | None => v
  end.

(** ** Choices as enumerations

    A model keeps a [choices] field as the stored string; the development
    also names each choice by a constructor.  [enum_of_value] parses a
    stored value back, and the two lemmas below give the round trip for
    any enumeration whose values are pairwise distinct. *)
Section Enum.
Context {E : Type} (value : E -> string) (all : list E).

Definition enum_of_value (s : string) : option E :=
  find (fun e => String.eqb (value e) s) all.

Lemma enum_of_value_sound s e :
  enum_of_value s = Some e -> value e = s /\ In e all.
Proof.
  unfold enum_of_value. intros H.
  destruct (find_some _ _ H) as [Hin Heq].
  split; [apply String.eqb_eq |]; assumption.
Qed.

Lemma enum_of_value_value e :
  NoDup (map value all) -> In e all -> enum_of_value (value e) = Some e.
Proof.
  unfold enum_of_value. induction all as [|e' l IH]; simpl; [done|].
  intros Hnd Hin. apply NoDup_cons in Hnd as [Hnotin Hnd].
  destruct (String.eqb_spec (value e') (value e)) as [Heq|Hne].
  - destruct Hin as [->|Hin]; [done|].
    exfalso. apply Hnotin. rewrite Heq. apply list_elem_of_In. by apply in_map.
  - destruct Hin as [->|Hin]; [done|]. by apply IH.
Qed.

Lemma enum_of_value_choice (choices : list (string * string)) s :
  map value all = map fst choices ->
  valid_choice choices s = true <-> exists e, enum_of_value s = Some e.
Proof.
  intros Hv. unfold valid_choice, enum_of_value.
  rewrite existsb_exists. split.
  - intros [p [Hp Heq]].
    destruct (find (fun e => String.eqb (value e) s) all) as [e|] eqn:Hf; [eauto|].
    exfalso. assert (Hin : In p.1 (map value all)) by (rewrite Hv; by apply in_map).
    apply in_map_iff in Hin as [e [He Hin]].
    eapply (find_none _ _ Hf) in Hin. rewrite He, Heq in Hin. discriminate.
  - intros [e He]. destruct (find_some _ _ He) as [Hin Heq].
    assert (Hin' : In (value e) (map fst choices)) by (rewrite <- Hv; by apply in_map).
    apply in_map_iff in Hin' as [p [Hp Hin']]. exists p. rewrite Hp. auto.
Qed.
(** With a value per constructor and every constructor listed, parsing
    and the stored value are inverse. *)
Lemma enum_of_value_iff v e :
  NoDup (map value all) -> (forall e', In e' all) ->
  enum_of_value v = Some e <-> value e = v.
Proof.
  intros Hnd Hall. split.
  - intros H. apply (enum_of_value_sound _ _ H).
  - intros <-. by apply enum_of_value_value.
Qed.
End Enum.

(** A list of choice values without duplicates, by evaluation. *)
Ltac nodup_by_computation := apply (bool_decide_unpack _); vm_compute; exact I.

(** ** The model interface

    What every model class of the repository gives the database: its
    foreign keys with their declaration ([fk_shape], the same for every
    row), its unique constraints, [clean_fields] (the field validation of
    [full_clean]), [pre_save] (the [auto_now]/[auto_now_add] timestamps,
    [add] telling an INSERT from an UPDATE) and [set_null] (what the
    [SET_NULL] policy writes).  The laws say that these operations touch
    nothing the database's constraints read. *)
Class Model (A : Type) := {
  m_foreign_keys : A -> list fk;
  m_fk_shape : list (string * model * on_delete);
  m_unique_keys : A -> list unique;
  m_clean_fields : A -> bool;
  m_pre_save : bool -> Z -> A -> A;
  m_set_null : string -> A -> A;
  m_fk_shape_spec : forall a, map fk_sig (m_foreign_keys a) = m_fk_shape;
  m_set_null_fks : forall n a, m_foreign_keys (m_set_null n a) = map (null_fk n) (m_foreign_keys a);
  m_set_null_uniques : forall n a, m_unique_keys (m_set_null n a) = m_unique_keys a;
  m_pre_save_fks : forall add now a, m_foreign_keys (m_pre_save add now a) = m_foreign_keys a;
  m_pre_save_uniques : forall add now a, m_unique_keys (m_pre_save add now a) = m_unique_keys a
}.
Arguments m_fk_shape A {_}.

(** Discharge the laws of a [Model] instance whose operations rebuild the
    record from its own fields. *)
Ltac model_laws :=
  intros; first
  [ reflexivity
  | symmetry; apply null_fk_all_cascade; repeat constructor ].

(** ** The bound [DecimalField] puts on a value *)

Section DecimalBound.
Local Open Scope Z_scope.

Lemma ndigits_go_spec f n :
  Z.of_N n < 10 ^ Z.of_nat f ->
  (1 <= ndigits_go f n)%nat /\ Z.of_N n < 10 ^ Z.of_nat (ndigits_go f n) /\
  (10 <= Z.of_N n -> 10 ^ Z.of_nat (ndigits_go f n - 1) <= Z.of_N n) /\
  (Z.of_N n < 10 -> ndigits_go f n = 1%nat).
Proof.
  revert n. induction f as [|f IH]; intros n Hn; simpl.
  - simpl in Hn. lia.
  - destruct (N.ltb_spec n 10) as [Hlt|Hge].
    + simpl. lia.
    + assert (Hdm := Z.div_mod (Z.of_N n) 10 ltac:(lia)).
      assert (Hmb := Z.mod_pos_bound (Z.of_N n) 10 ltac:(lia)).
      assert (Hq : Z.of_N (n / 10) = Z.of_N n / 10) by (rewrite N2Z.inj_div; reflexivity).
      rewrite Nat2Z.inj_succ, Z.pow_succ_r in Hn by lia.
      destruct (IH (n / 10)%N) as (H1 & H2 & H3 & H4); [lia|].
      set (k := ndigits_go f (n / 10)) in *.
      split; [lia|]. split; [|split; [|lia]].
      * rewrite Nat2Z.inj_succ, Z.pow_succ_r by lia. lia.
      * intros _. replace (S k - 1)%nat with k by lia.
        destruct (Z.le_gt_cases 10 (Z.of_N n / 10)) as [Hq10|Hq10].
        -- specialize (H3 ltac:(lia)).
           replace (Z.of_nat k) with (Z.succ (Z.of_nat (k - 1))) by lia.
           rewrite Z.pow_succ_r by lia. lia.
        -- rewrite (H4 ltac:(lia)). simpl. lia.
Qed.
Lemma ndigits_spec n :
  (1 <= ndigits n)%nat /\ Z.of_N n < 10 ^ Z.of_nat (ndigits n) /\
  (0 < Z.of_N n -> 10 ^ Z.of_nat (ndigits n - 1) <= Z.of_N n).
Proof.
  unfold ndigits. destruct (ndigits_go_spec (N.to_nat (N.size n)) n) as (H1 & H2 & H3 & H4).
  - pose proof (N.size_gt n) as Hs. rewrite N_nat_Z.
    assert (Z.of_N n < 2 ^ Z.of_N (N.size n)).
    { pose proof (proj1 (N2Z.inj_lt _ _) Hs) as H. rewrite N2Z.inj_pow in H. exact H. }
    assert (2 ^ Z.of_N (N.size n) <= 10 ^ Z.of_N (N.size n)) by (apply Z.pow_le_mono_l; lia).
    lia.
  - split; [done|]. split; [done|]. intros Hpos.
    destruct (Z.le_gt_cases 10 (Z.of_N n)); [auto|]. rewrite H4 by lia. simpl. lia.
Qed.
Lemma coeff_pow_lt c j m :
  0 < Z.of_N c -> 0 <= j -> 0 <= m ->
  Z.of_N c * 10 ^ j < 10 ^ m <-> Z.of_nat (ndigits c) + j <= m.
Proof.
  intros Hc Hj Hm. destruct (ndigits_spec c) as (H1 & H2 & H3). specialize (H3 Hc).
  assert (Hpj : 0 < 10 ^ j) by (apply Z.pow_pos_nonneg; lia).
  split; intros H.
  - destruct (Z.le_gt_cases (Z.of_nat (ndigits c) + j) m) as [|Hgt]; [done|]. exfalso.
    assert (Hle : 10 ^ m <= 10 ^ (Z.of_nat (ndigits c - 1) + j)) by (apply Z.pow_le_mono_r; lia).
    rewrite Z.pow_add_r in Hle by lia. nia.
  - assert (Hle : 10 ^ (Z.of_nat (ndigits c) + j) <= 10 ^ m) by (apply Z.pow_le_mono_r; lia).
    rewrite Z.pow_add_r in Hle by lia. nia.
Qed.

(** [DecimalValidator(max_digits, decimal_places)] accepts a [Decimal]
    exactly when it has at most [decimal_places] places and its absolute
    value times [10^decimal_places] stays below [10^max_digits]. *)
Lemma decimal_field_bound md dp d :
  (dp < md)%nat ->
  decimal_field md dp d = true <->
  - Z.of_nat dp <= dec_exp d /\
  Z.of_N (dec_coeff d) * 10 ^ (dec_exp d + Z.of_nat dp) < 10 ^ Z.of_nat md.
Proof.
  intros Hlt. unfold decimal_field. destruct d as [neg c e]; simpl.
  assert (Hpm : 0 < 10 ^ Z.of_nat md) by (apply Z.pow_pos_nonneg; lia).
  destruct (ndigits_spec c) as (H1 & H2 & H3).
  destruct (Z.leb_spec 0 e) as [He|He].
  - destruct (N.eqb_spec c 0) as [->|Hc].
    + change (ndigits 0) with 1%nat. rewrite !andb_true_iff, !Nat.leb_le. simpl. lia.
    + rewrite !andb_true_iff, !Nat.leb_le, coeff_pow_lt by lia. lia.
  - destruct (Nat.ltb_spec (ndigits c) (Z.to_nat (- e))) as [Hk|Hk]; cbn iota beta;
      rewrite !andb_true_iff, !Nat.leb_le.
    + split.
      * intros [[_ Ha] _]. split; [lia|].
        destruct (N.eq_dec c 0%N) as [->|Hc]; [simpl; lia|].
        apply coeff_pow_lt; lia.
      * intros [He' _]. lia.
    + destruct (N.eq_dec c 0%N) as [->|Hc].
      * change (ndigits 0) with 1%nat in *. simpl. lia.
      * split.
        -- intros [[Hd Ha] Hw]. split; [lia|]. apply coeff_pow_lt; lia.
        -- intros [He' Hv]. apply coeff_pow_lt in Hv; lia.
Qed.

End DecimalBound.
