(* ===== verification/Companies.v ===== *)
(** * companies/models.py: the [Company] model

    A company owns every other row of the schema (users, marketplaces,
    products, warehouses, orders, supplies, shipments, services, reports,
    inventories): it is the root of the cascade graph of [Database.v].
    Its only constraint is the unique tax number [inn]. *)

From S2P Require Import Prelude Django.

Module Company.

(** [class Company(models.Model)], one Rocq field per model field; the
    [null=True] fields are options, the timestamps are seconds. *)
Record t := mk {
  name : string;
  short_name : option string;
  inn : string;
  kpp : option string;
  legal_address : string;
  actual_address : option string;
  bank_name : option string;
  bank_bik : option string;
  bank_account : option string;
  corr_account : option string;
  is_dropshipping_enabled : bool;
  contact_person : option string;
  contact_phone : option string;
  contact_email : option string;
  created_at : Z;
  updated_at : Z
}.

(** [Company(name=..., inn=..., legal_address=...)]: the other fields take
    their declared defaults ([null] or [False]). *)
Definition create (name inn legal_address : string) : t :=
  mk name None inn None legal_address None None None None None false None None None 0 0.

Definition clean_fields (c : t) : bool :=
  char_field 255 false (name c) &&
  opt_field (char_field 100 true) (short_name c) &&
  char_field 12 false (inn c) &&
  opt_field (char_field 9 true) (kpp c) &&
  text_field false (legal_address c) &&
  opt_field (text_field true) (actual_address c) &&
  opt_field (char_field 255 true) (bank_name c) &&
  opt_field (char_field 9 true) (bank_bik c) &&
  opt_field (char_field 20 true) (bank_account c) &&
  opt_field (char_field 20 true) (corr_account c) &&
  opt_field (char_field 255 true) (contact_person c) &&
  opt_field (char_field 20 true) (contact_phone c) &&
  opt_field (email_field true) (contact_email c).

Definition foreign_keys (c : t) : list fk := [].

Definition fk_shape : list (string * model * on_delete) := [].

(** [inn = models.CharField(..., unique=True)] *)
Definition unique_keys (c : t) : list unique := [mk_unique "inn" [UStr (inn c)]].

(** [created_at] is [auto_now_add], [updated_at] is [auto_now]. *)
Definition pre_save (add : bool) (now : Z) (c : t) : t :=
  mk (name c) (short_name c) (inn c) (kpp c) (legal_address c) (actual_address c)
     (bank_name c) (bank_bik c) (bank_account c) (corr_account c)
     (is_dropshipping_enabled c) (contact_person c) (contact_phone c)
     (contact_email c) (if add then now else created_at c) now.

Definition set_null (n : string) (c : t) : t := c.

(** [__str__] *)
Definition str (c : t) : string := name c.

#[global] Instance model_inst : Model t.
Proof.
  refine {| m_foreign_keys := foreign_keys; m_fk_shape := fk_shape;
            m_unique_keys := unique_keys; m_clean_fields := clean_fields;
            m_pre_save := pre_save; m_set_null := set_null |}; model_laws.
Defined.

End Company.
