(* ===== verification/Users.v ===== *)
(** * users/models.py: the [User] model

    [User] extends Django's [AbstractUser]; the fields it inherits that the
    repository relies on ([username], unique) are modelled beside the ones
    it declares.  Its [company] key is nullable and cascades. *)

From S2P Require Import Prelude Django.

Module User.

(** [class User(AbstractUser)]: [username], [first_name], [last_name],
    [password], [is_staff], [is_active] and [date_joined] come from
    [AbstractUser]; [email] is redeclared [unique=True]. *)
Record t := mk {
  username : string;
  first_name : string;
  last_name : string;
  password : string;
  is_staff : bool;
  is_active : bool;
  date_joined : Z;
  email : string;
  phone : option string;
  position : option string;
  company : option Z;
  is_two_factor_enabled : bool
}.

Definition create (username email password : string) (now : Z) : t :=
  mk username "" "" password false true now email None None None false.

(** [username] is [CharField(max_length=150)] with a syntax validator that
    is not modelled; [first_name]/[last_name] are [blank=True]. *)
Definition clean_fields (u : t) : bool :=
  char_field 150 false (username u) &&
  char_field 150 true (first_name u) &&
  char_field 150 true (last_name u) &&
  char_field 128 false (password u) &&
  email_field false (email u) &&
  opt_field (char_field 20 true) (phone u) &&
  opt_field (char_field 100 true) (position u).

Definition foreign_keys (u : t) : list fk :=
  [mk_fk "company" MCompany CASCADE (company u)].

Definition fk_shape : list (string * model * on_delete) :=
  [("company", MCompany, CASCADE)].

Definition unique_keys (u : t) : list unique :=
  [mk_unique "username" [UStr (username u)]; mk_unique "email" [UStr (email u)]].

(** No [auto_now] field: saving changes nothing. *)
Definition pre_save (add : bool) (now : Z) (u : t) : t := u.

Definition set_null (n : string) (u : t) : t := u.

Definition str (u : t) : string := username u.

#[global] Instance model_inst : Model t.
Proof.
  refine {| m_foreign_keys := foreign_keys; m_fk_shape := fk_shape;
            m_unique_keys := unique_keys; m_clean_fields := clean_fields;
            m_pre_save := pre_save; m_set_null := set_null |}; model_laws.
Defined.

End User.
