(* ===== verification/Api.v ===== *)
(** * api/models.py: the [Marketplace] model

    A marketplace connection of a company (Wildberries, Ozon, ...): its
    type is a [choices] field, its [last_sync] the time of the last
    synchronisation.  Orders and product links point to it and cascade
    with it. *)

From S2P Require Import Prelude Django.

Module Marketplace.

(** [MARKETPLACE_TYPES], as declared (value, label). *)
Definition MARKETPLACE_TYPES : list (string * string) :=
  [("wildberries", "Wildberries"); ("ozon", "Ozon");
   ("yandex_market", "Яндекс.Маркет"); ("aliexpress", "AliExpress");
   ("sber_mega_market", "СберМегаМаркет"); ("other", "Другой")].

Inductive marketplace_type :=
| Wildberries | Ozon | YandexMarket | AliExpress | SberMegaMarket | Other.

Definition type_value (k : marketplace_type) : string :=
  match k with
  | Wildberries => "wildberries" | Ozon => "ozon" | YandexMarket => "yandex_market"
  | AliExpress => "aliexpress" | SberMegaMarket => "sber_mega_market" | Other => "other"
  end.

Definition all_types : list marketplace_type :=
  [Wildberries; Ozon; YandexMarket; AliExpress; SberMegaMarket; Other].

Definition type_of_value : string -> option marketplace_type :=
  enum_of_value type_value all_types.

(** [class Marketplace(models.Model)] *)
Record t := mk {
  name : string;
  type : string;
  company : Z;
  api_key : option string;
  api_secret : option string;
  client_id : option string;
  is_fbs_enabled : bool;
  is_connected : bool;
  last_sync : option Z;
  products_count : Z;
  created_at : Z;
  updated_at : Z
}.

Definition create (name type : string) (company : Z) : t :=
  mk name type company None None None false false None 0 0 0.

Definition clean_fields (m : t) : bool :=
  char_field 100 false (name m) &&
  choice_field 20 MARKETPLACE_TYPES (type m) &&
  opt_field (char_field 255 true) (api_key m) &&
  opt_field (char_field 255 true) (api_secret m) &&
  opt_field (char_field 255 true) (client_id m) &&
  int_field (products_count m).

Definition foreign_keys (m : t) : list fk :=
  [mk_fk "company" MCompany CASCADE (Some (company m))].

Definition fk_shape : list (string * model * on_delete) :=
  [("company", MCompany, CASCADE)].

Definition unique_keys (m : t) : list unique := [].

Definition pre_save (add : bool) (now : Z) (m : t) : t :=
  mk (name m) (type m) (company m) (api_key m) (api_secret m) (client_id m)
     (is_fbs_enabled m) (is_connected m) (last_sync m) (products_count m)
     (if add then now else created_at m) now.

Definition set_null (n : string) (m : t) : t := m.

(** [__str__]: [f"{self.name} ({self.get_type_display()})"] *)
Definition str (m : t) : string :=
  name m ++ " (" ++ display MARKETPLACE_TYPES (type m) ++ ")".

#[global] Instance model_inst : Model t.
Proof.
  refine {| m_foreign_keys := foreign_keys; m_fk_shape := fk_shape;
            m_unique_keys := unique_keys; m_clean_fields := clean_fields;
            m_pre_save := pre_save; m_set_null := set_null |}; model_laws.
Defined.

End Marketplace.
