(* ===== verification/Products.v ===== *)
(** * products/models.py: [Product], [ProductImage], [ProductMarketplace]

    A product of a company, identified by a globally unique [barcode];
    its images (ordered by [order]); and its link to a marketplace, unique
    per (product, marketplace).  Every key here cascades: deleting a
    product deletes its images and links, and (in [Database.v]) the order,
    supply, service and inventory items that name it. *)

From S2P Require Import Prelude Django.

Module Product.

(** [class Product(models.Model)]; the [DecimalField]s are [Decimal]s. *)
Record t := mk {
  name : string;
  article : string;
  barcode : string;
  description : option string;
  company : Z;
  brand : option string;
  category : option string;
  weight : option decimal;
  width : option decimal;
  height : option decimal;
  depth : option decimal;
  purchase_price : option decimal;
  recommended_price : option decimal;
  is_active : bool;
  is_deleted : bool;
  created_at : Z;
  updated_at : Z
}.

Definition create (name article barcode : string) (company : Z) : t :=
  mk name article barcode None company None None None None None None None None
     true false 0 0.

Definition clean_fields (p : t) : bool :=
  char_field 255 false (name p) &&
  char_field 100 false (article p) &&
  char_field 100 false (barcode p) &&
  opt_field (text_field true) (description p) &&
  opt_field (char_field 100 true) (brand p) &&
  opt_field (char_field 100 true) (category p) &&
  opt_field (decimal_field 10 2) (weight p) &&
  opt_field (decimal_field 10 2) (width p) &&
  opt_field (decimal_field 10 2) (height p) &&
  opt_field (decimal_field 10 2) (depth p) &&
  opt_field (decimal_field 10 2) (purchase_price p) &&
  opt_field (decimal_field 10 2) (recommended_price p).

Definition foreign_keys (p : t) : list fk :=
  [mk_fk "company" MCompany CASCADE (Some (company p))].

Definition fk_shape : list (string * model * on_delete) :=
  [("company", MCompany, CASCADE)].

(** [barcode] is [unique=True]; [article] carries no constraint. *)
Definition unique_keys (p : t) : list unique := [mk_unique "barcode" [UStr (barcode p)]].

Definition pre_save (add : bool) (now : Z) (p : t) : t :=
  mk (name p) (article p) (barcode p) (description p) (company p) (brand p)
     (category p) (weight p) (width p) (height p) (depth p) (purchase_price p)
     (recommended_price p) (is_active p) (is_deleted p)
     (if add then now else created_at p) now.

Definition set_null (n : string) (p : t) : t := p.

(** [__str__]: [f"{self.name} ({self.article})"] *)
Definition str (p : t) : string := name p ++ " (" ++ article p ++ ")".

#[global] Instance model_inst : Model t.
Proof.
  refine {| m_foreign_keys := foreign_keys; m_fk_shape := fk_shape;
            m_unique_keys := unique_keys; m_clean_fields := clean_fields;
            m_pre_save := pre_save; m_set_null := set_null |}; model_laws.
Defined.

End Product.

Module ProductImage.

(** [class ProductImage(models.Model)]; [image] is the stored file name
    ([ImageField] is a [FileField] of [max_length=100]). *)
Record t := mk {
  product : Z;
  image : string;
  is_main : bool;
  order : Z;
  created_at : Z
}.

Definition create (product : Z) (image : string) : t := mk product image false 0 0.

Definition clean_fields (i : t) : bool :=
  char_field 100 false (image i) && int_field (order i).

Definition foreign_keys (i : t) : list fk :=
  [mk_fk "product" MProduct CASCADE (Some (product i))].

Definition fk_shape : list (string * model * on_delete) :=
  [("product", MProduct, CASCADE)].

Definition unique_keys (i : t) : list unique := [].

Definition pre_save (add : bool) (now : Z) (i : t) : t :=
  mk (product i) (image i) (is_main i) (order i) (if add then now else created_at i).

Definition set_null (n : string) (i : t) : t := i.

(** [__str__]: [f"Image for {self.product.name}"], given the product's name. *)
Definition str (product_name : string) (i : t) : string := "Image for " ++ product_name.

#[global] Instance model_inst : Model t.
Proof.
  refine {| m_foreign_keys := foreign_keys; m_fk_shape := fk_shape;
            m_unique_keys := unique_keys; m_clean_fields := clean_fields;
            m_pre_save := pre_save; m_set_null := set_null |}; model_laws.
Defined.

End ProductImage.

Module ProductMarketplace.

(** [class ProductMarketplace(models.Model)] *)
Record t := mk {
  product : Z;
  marketplace : Z;
  external_id : string;
  external_barcode : option string;
  external_article : option string;
  is_active : bool;
  last_sync : option Z;
  created_at : Z;
  updated_at : Z
}.

Definition create (product marketplace : Z) (external_id : string) : t :=
  mk product marketplace external_id None None true None 0 0.

Definition clean_fields (l : t) : bool :=
  char_field 100 false (external_id l) &&
  opt_field (char_field 100 true) (external_barcode l) &&
  opt_field (char_field 100 true) (external_article l).

Definition foreign_keys (l : t) : list fk :=
  [mk_fk "product" MProduct CASCADE (Some (product l));
   mk_fk "marketplace" MMarketplace CASCADE (Some (marketplace l))].

Definition fk_shape : list (string * model * on_delete) :=
  [("product", MProduct, CASCADE); ("marketplace", MMarketplace, CASCADE)].

(** [unique_together = ('product', 'marketplace')] *)
Definition unique_keys (l : t) : list unique :=
  [mk_unique "product,marketplace" [UId (product l); UId (marketplace l)]].

Definition pre_save (add : bool) (now : Z) (l : t) : t :=
  mk (product l) (marketplace l) (external_id l) (external_barcode l)
     (external_article l) (is_active l) (last_sync l)
     (if add then now else created_at l) now.

Definition set_null (n : string) (l : t) : t := l.

(** [__str__]: [f"{self.product.name} on {self.marketplace.name}"], given
    the names of the related product and marketplace. *)
Definition str (product_name marketplace_name : string) (l : t) : string :=
  product_name ++ " on " ++ marketplace_name.

#[global] Instance model_inst : Model t.
Proof.
  refine {| m_foreign_keys := foreign_keys; m_fk_shape := fk_shape;
            m_unique_keys := unique_keys; m_clean_fields := clean_fields;
            m_pre_save := pre_save; m_set_null := set_null |}; model_laws.
Defined.

End ProductMarketplace.
