(* ===== verification/Warehouses.v ===== *)
(** * warehouses/models.py: [Warehouse] and [StorageUnit]

    A warehouse of a company and its storage units (shelf, rack, pallet,
    box, cell).  A unit names its warehouse and, optionally, a parent unit
    of the same table; both keys cascade, so deleting a unit deletes the
    units below it (the recursion the Collector of [Database.v] follows).
    Nothing in the declaration keeps the parent relation acyclic or the
    parent in the same warehouse. *)

From S2P Require Import Prelude Django.

Module Warehouse.

(** [WAREHOUSE_TYPES] (value, untranslated label). *)
Definition WAREHOUSE_TYPES : list (string * string) :=
  [("client", "Client warehouse"); ("fulfillment", "Fulfillment warehouse");
   ("marketplace", "Marketplace warehouse")].

Inductive warehouse_type := Client | Fulfillment | MarketplaceWarehouse.

Definition type_value (k : warehouse_type) : string :=
  match k with
  | Client => "client" | Fulfillment => "fulfillment" | MarketplaceWarehouse => "marketplace"
  end.

Definition all_types : list warehouse_type := [Client; Fulfillment; MarketplaceWarehouse].

Definition type_of_value : string -> option warehouse_type :=
  enum_of_value type_value all_types.

(** [class Warehouse(models.Model)] *)
Record t := mk {
  name : string;
  type : string;
  address : string;
  company : Z;
  contact_person : option string;
  contact_phone : option string;
  contact_email : option string;
  created_at : Z;
  updated_at : Z
}.

Definition create (name type address : string) (company : Z) : t :=
  mk name type address company None None None 0 0.

Definition clean_fields (w : t) : bool :=
  char_field 255 false (name w) &&
  choice_field 20 WAREHOUSE_TYPES (type w) &&
  text_field false (address w) &&
  opt_field (char_field 255 true) (contact_person w) &&
  opt_field (char_field 20 true) (contact_phone w) &&
  opt_field (email_field true) (contact_email w).

Definition foreign_keys (w : t) : list fk :=
  [mk_fk "company" MCompany CASCADE (Some (company w))].

Definition fk_shape : list (string * model * on_delete) :=
  [("company", MCompany, CASCADE)].

Definition unique_keys (w : t) : list unique := [].

Definition pre_save (add : bool) (now : Z) (w : t) : t :=
  mk (name w) (type w) (address w) (company w) (contact_person w)
     (contact_phone w) (contact_email w) (if add then now else created_at w) now.

Definition set_null (n : string) (w : t) : t := w.

Definition str (w : t) : string := name w.

#[global] Instance model_inst : Model t.
Proof.
  refine {| m_foreign_keys := foreign_keys; m_fk_shape := fk_shape;
            m_unique_keys := unique_keys; m_clean_fields := clean_fields;
            m_pre_save := pre_save; m_set_null := set_null |}; model_laws.
Defined.

End Warehouse.

Module StorageUnit.

(** [UNIT_TYPES] *)
Definition UNIT_TYPES : list (string * string) :=
  [("shelf", "Shelf"); ("rack", "Rack"); ("pallet", "Pallet"); ("box", "Box");
   ("cell", "Cell")].

Inductive unit_type := Shelf | Rack | Pallet | Box | Cell.

Definition type_value (k : unit_type) : string :=
  match k with
  | Shelf => "shelf" | Rack => "rack" | Pallet => "pallet" | Box => "box" | Cell => "cell"
  end.

Definition all_types : list unit_type := [Shelf; Rack; Pallet; Box; Cell].

Definition type_of_value : string -> option unit_type :=
  enum_of_value type_value all_types.

(** [class StorageUnit(models.Model)] *)
Record t := mk {
  warehouse : Z;
  name : string;
  type : string;
  code : string;
  width : option decimal;
  height : option decimal;
  depth : option decimal;
  max_weight : option decimal;
  max_items : option Z;
  parent_unit : option Z;
  created_at : Z;
  updated_at : Z
}.

Definition create (warehouse : Z) (name type code : string) (parent_unit : option Z) : t :=
  mk warehouse name type code None None None None None parent_unit 0 0.

Definition clean_fields (u : t) : bool :=
  char_field 100 false (name u) &&
  choice_field 20 UNIT_TYPES (type u) &&
  char_field 50 false (code u) &&
  opt_field (decimal_field 10 2) (width u) &&
  opt_field (decimal_field 10 2) (height u) &&
  opt_field (decimal_field 10 2) (depth u) &&
  opt_field (decimal_field 10 2) (max_weight u) &&
  opt_field int_field (max_items u).

Definition foreign_keys (u : t) : list fk :=
  [mk_fk "warehouse" MWarehouse CASCADE (Some (warehouse u));
   mk_fk "parent_unit" MStorageUnit CASCADE (parent_unit u)].

Definition fk_shape : list (string * model * on_delete) :=
  [("warehouse", MWarehouse, CASCADE); ("parent_unit", MStorageUnit, CASCADE)].

(** [code] is [unique=True]. *)
Definition unique_keys (u : t) : list unique := [mk_unique "code" [UStr (code u)]].

Definition pre_save (add : bool) (now : Z) (u : t) : t :=
  mk (warehouse u) (name u) (type u) (code u) (width u) (height u) (depth u)
     (max_weight u) (max_items u) (parent_unit u)
     (if add then now else created_at u) now.

Definition set_null (n : string) (u : t) : t := u.

(** [__str__]: [f"{self.code} - {self.name}"] *)
Definition str (u : t) : string := code u ++ " - " ++ name u.

#[global] Instance model_inst : Model t.
Proof.
  refine {| m_foreign_keys := foreign_keys; m_fk_shape := fk_shape;
            m_unique_keys := unique_keys; m_clean_fields := clean_fields;
            m_pre_save := pre_save; m_set_null := set_null |}; model_laws.
Defined.

End StorageUnit.
