(* ===== verification/Orders.v ===== *)
(** * orders/models.py: [Order] and [OrderItem]

    An order received from a marketplace, unique per (marketplace,
    external_id), with a [status] among [ORDER_STATUSES] (default [new])
    and an optional shipping warehouse whose deletion only NULLs the key
    ([on_delete=SET_NULL], the one such key of the schema).  Its items
    name a product and a quantity and carry the [is_processed] flag. *)

From S2P Require Import Prelude Django.

Module Order.

(** [ORDER_STATUSES] (value, untranslated label). *)
Definition ORDER_STATUSES : list (string * string) :=
  [("new", "New"); ("processing", "Processing"); ("ready_to_ship", "Ready to ship");
   ("shipped", "Shipped"); ("delivered", "Delivered"); ("cancelled", "Cancelled");
   ("returned", "Returned")].

Inductive order_status :=
| New | Processing | ReadyToShip | Shipped | Delivered | Cancelled | Returned.

#[export] Instance order_status_eq_dec : EqDecision order_status.
Proof. solve_decision. Defined.

Definition status_value (s : order_status) : string :=
  match s with
  | New => "new" | Processing => "processing" | ReadyToShip => "ready_to_ship"
  | Shipped => "shipped" | Delivered => "delivered" | Cancelled => "cancelled"
  | Returned => "returned"
  end.

Definition all_statuses : list order_status :=
  [New; Processing; ReadyToShip; Shipped; Delivered; Cancelled; Returned].

Definition status_of_value : string -> option order_status :=
  enum_of_value status_value all_statuses.

(** [class Order(models.Model)] *)
Record t := mk {
  marketplace : Z;
  company : Z;
  external_id : string;
  status : string;
  shipping_warehouse : option Z;
  shipping_wave : option string;
  shipping_date : option Z;
  total_price : decimal;
  fulfillment_cost : option decimal;
  weight : option decimal;
  created_at : Z;
  updated_at : Z
}.

(** [Order(marketplace=..., company=..., external_id=..., total_price=...)]:
    [status] takes its default ['new']. *)
Definition create (marketplace company : Z) (external_id : string) (total_price : decimal) : t :=
  mk marketplace company external_id "new" None None None total_price None None 0 0.

Definition clean_fields (o : t) : bool :=
  char_field 100 false (external_id o) &&
  choice_field 20 ORDER_STATUSES (status o) &&
  opt_field (char_field 100 true) (shipping_wave o) &&
  decimal_field 10 2 (total_price o) &&
  opt_field (decimal_field 10 2) (fulfillment_cost o) &&
  opt_field (decimal_field 10 2) (weight o).

Definition foreign_keys (o : t) : list fk :=
  [mk_fk "marketplace" MMarketplace CASCADE (Some (marketplace o));
   mk_fk "company" MCompany CASCADE (Some (company o));
   mk_fk "shipping_warehouse" MWarehouse SET_NULL (shipping_warehouse o)].

Definition fk_shape : list (string * model * on_delete) :=
  [("marketplace", MMarketplace, CASCADE); ("company", MCompany, CASCADE);
   ("shipping_warehouse", MWarehouse, SET_NULL)].

(** [unique_together = ('marketplace', 'external_id')] *)
Definition unique_keys (o : t) : list unique :=
  [mk_unique "marketplace,external_id" [UId (marketplace o); UStr (external_id o)]].

Definition pre_save (add : bool) (now : Z) (o : t) : t :=
  mk (marketplace o) (company o) (external_id o) (status o) (shipping_warehouse o)
     (shipping_wave o) (shipping_date o) (total_price o) (fulfillment_cost o)
     (weight o) (if add then now else created_at o) now.

(** [SET_NULL] on [shipping_warehouse]: the only nullable key. *)
Definition set_null (n : string) (o : t) : t :=
  if String.eqb "shipping_warehouse" n
  then mk (marketplace o) (company o) (external_id o) (status o) None
          (shipping_wave o) (shipping_date o) (total_price o) (fulfillment_cost o)
          (weight o) (created_at o) (updated_at o)
  else o.

(** [__str__]: [f"Order {self.external_id} ({self.get_status_display()})"] *)
Definition str (o : t) : string :=
  "Order " ++ external_id o ++ " (" ++ display ORDER_STATUSES (status o) ++ ")".

Lemma set_null_fks n o : foreign_keys (set_null n o) = map (null_fk n) (foreign_keys o).
Proof.
  unfold set_null. destruct (String.eqb "shipping_warehouse" n) eqn:E;
    unfold foreign_keys, null_fk; cbn [map fk_on_delete fk_name]; rewrite E; done.
Qed.

Lemma set_null_uniques n o : unique_keys (set_null n o) = unique_keys o.
Proof. unfold set_null. by destruct (String.eqb "shipping_warehouse" n). Qed.

#[global] Instance model_inst : Model t.
Proof.
  refine {| m_foreign_keys := foreign_keys; m_fk_shape := fk_shape;
            m_unique_keys := unique_keys; m_clean_fields := clean_fields;
            m_pre_save := pre_save; m_set_null := set_null;
            m_set_null_fks := set_null_fks; m_set_null_uniques := set_null_uniques |};
    model_laws.
Defined.

End Order.

Module OrderItem.

(** [class OrderItem(models.Model)] *)
Record t := mk {
  order : Z;
  product : Z;
  quantity : Z;
  price : decimal;
  is_processed : bool;
  created_at : Z
}.

Definition create (order product quantity : Z) (price : decimal) : t :=
  mk order product quantity price false 0.

(** [quantity] is a plain [IntegerField]: no validator beyond the column's
    range, so zero and negative quantities pass. *)
Definition clean_fields (i : t) : bool :=
  int_field (quantity i) && decimal_field 10 2 (price i).

Definition foreign_keys (i : t) : list fk :=
  [mk_fk "order" MOrder CASCADE (Some (order i));
   mk_fk "product" MProduct CASCADE (Some (product i))].

Definition fk_shape : list (string * model * on_delete) :=
  [("order", MOrder, CASCADE); ("product", MProduct, CASCADE)].

Definition unique_keys (i : t) : list unique := [].

Definition pre_save (add : bool) (now : Z) (i : t) : t :=
  mk (order i) (product i) (quantity i) (price i) (is_processed i)
     (if add then now else created_at i).

Definition set_null (n : string) (i : t) : t := i.

(** [__str__]: [f"{self.product.name} x{self.quantity} in Order {self.order.external_id}"],
    given the product's name and the order's external id. *)
Definition str (product_name order_external_id : string) (i : t) : string :=
  product_name ++ " x" ++ pretty (quantity i) ++ " in Order " ++ order_external_id.

#[global] Instance model_inst : Model t.
Proof.
  refine {| m_foreign_keys := foreign_keys; m_fk_shape := fk_shape;
            m_unique_keys := unique_keys; m_clean_fields := clean_fields;
            m_pre_save := pre_save; m_set_null := set_null |}; model_laws.
Defined.

End OrderItem.

