(* ===== verification/Supplies.v ===== *)
(** * supplies/models.py: [Supply], [SupplyItem], [SupplyDocument]

    A supply moves goods from a source to a destination warehouse; its
    [status] is among [SUPPLY_STATUSES] (default [draft]).  Each item has
    a planned [quantity] and a [quantity_received] (default 0) that the
    declaration does not bound by the plan. *)

From S2P Require Import Prelude Django.

Module Supply.

(** [SUPPLY_STATUSES] *)
Definition SUPPLY_STATUSES : list (string * string) :=
  [("draft", "Draft"); ("pending", "Pending"); ("approved", "Approved");
   ("in_transit", "In transit"); ("received", "Received"); ("cancelled", "Cancelled")].

Inductive supply_status := Draft | Pending | Approved | InTransit | Received | Cancelled.

#[export] Instance supply_status_eq_dec : EqDecision supply_status.
Proof. solve_decision. Defined.

Definition status_value (s : supply_status) : string :=
  match s with
  | Draft => "draft" | Pending => "pending" | Approved => "approved"
  | InTransit => "in_transit" | Received => "received" | Cancelled => "cancelled"
  end.

Definition all_statuses : list supply_status :=
  [Draft; Pending; Approved; InTransit; Received; Cancelled].

Definition status_of_value : string -> option supply_status :=
  enum_of_value status_value all_statuses.

(** [class Supply(models.Model)] *)
Record t := mk {
  company : Z;
  source_warehouse : Z;
  destination_warehouse : Z;
  status : string;
  supply_date : Z;
  supply_time_slot : string;
  pallets_count : Z;
  boxes_count : Z;
  pickup_required : bool;
  comment : option string;
  created_at : Z;
  updated_at : Z
}.

Definition create (company source destination supply_date : Z) (slot : string) : t :=
  mk company source destination "draft" supply_date slot 0 0 false None 0 0.

Definition clean_fields (s : t) : bool :=
  choice_field 20 SUPPLY_STATUSES (status s) &&
  char_field 20 false (supply_time_slot s) &&
  int_field (pallets_count s) && int_field (boxes_count s) &&
  opt_field (text_field true) (comment s).

Definition foreign_keys (s : t) : list fk :=
  [mk_fk "company" MCompany CASCADE (Some (company s));
   mk_fk "source_warehouse" MWarehouse CASCADE (Some (source_warehouse s));
   mk_fk "destination_warehouse" MWarehouse CASCADE (Some (destination_warehouse s))].

Definition fk_shape : list (string * model * on_delete) :=
  [("company", MCompany, CASCADE); ("source_warehouse", MWarehouse, CASCADE);
   ("destination_warehouse", MWarehouse, CASCADE)].

Definition unique_keys (s : t) : list unique := [].

Definition pre_save (add : bool) (now : Z) (s : t) : t :=
  mk (company s) (source_warehouse s) (destination_warehouse s) (status s)
     (supply_date s) (supply_time_slot s) (pallets_count s) (boxes_count s)
     (pickup_required s) (comment s) (if add then now else created_at s) now.

Definition set_null (n : string) (s : t) : t := s.

(** [__str__]: [f"Supply #{self.id} ({self.get_status_display()})"] *)
Definition str (id : Z) (s : t) : string :=
  "Supply #" ++ pretty id ++ " (" ++ display SUPPLY_STATUSES (status s) ++ ")".

#[global] Instance model_inst : Model t.
Proof.
  refine {| m_foreign_keys := foreign_keys; m_fk_shape := fk_shape;
            m_unique_keys := unique_keys; m_clean_fields := clean_fields;
            m_pre_save := pre_save; m_set_null := set_null |}; model_laws.
Defined.

End Supply.

Module SupplyItem.

(** [class SupplyItem(models.Model)] *)
Record t := mk {
  supply : Z;
  product : Z;
  quantity : Z;
  quantity_received : Z;
  is_processed : bool;
  created_at : Z
}.

Definition create (supply product quantity : Z) : t := mk supply product quantity 0 false 0.

Definition clean_fields (i : t) : bool :=
  int_field (quantity i) && int_field (quantity_received i).

Definition foreign_keys (i : t) : list fk :=
  [mk_fk "supply" MSupply CASCADE (Some (supply i));
   mk_fk "product" MProduct CASCADE (Some (product i))].

Definition fk_shape : list (string * model * on_delete) :=
  [("supply", MSupply, CASCADE); ("product", MProduct, CASCADE)].

Definition unique_keys (i : t) : list unique := [].

Definition pre_save (add : bool) (now : Z) (i : t) : t :=
  mk (supply i) (product i) (quantity i) (quantity_received i) (is_processed i)
     (if add then now else created_at i).

Definition set_null (n : string) (i : t) : t := i.

(** [__str__]: [f"{self.product.name} x{self.quantity} in Supply #{self.supply.id}"] *)
Definition str (product_name : string) (i : t) : string :=
  product_name ++ " x" ++ pretty (quantity i) ++ " in Supply #" ++ pretty (supply i).

#[global] Instance model_inst : Model t.
Proof.
  refine {| m_foreign_keys := foreign_keys; m_fk_shape := fk_shape;
            m_unique_keys := unique_keys; m_clean_fields := clean_fields;
            m_pre_save := pre_save; m_set_null := set_null |}; model_laws.
Defined.

End SupplyItem.

Module SupplyDocument.

(** [class SupplyDocument(models.Model)] *)
Record t := mk { supply : Z; name : string; file : string; created_at : Z }.

Definition clean_fields (d : t) : bool :=
  char_field 255 false (name d) && char_field 100 false (file d).

Definition foreign_keys (d : t) : list fk :=
  [mk_fk "supply" MSupply CASCADE (Some (supply d))].

Definition fk_shape : list (string * model * on_delete) := [("supply", MSupply, CASCADE)].

Definition unique_keys (d : t) : list unique := [].

Definition pre_save (add : bool) (now : Z) (d : t) : t :=
  mk (supply d) (name d) (file d) (if add then now else created_at d).

Definition set_null (n : string) (d : t) : t := d.

Definition str (d : t) : string := name d ++ " for Supply #" ++ pretty (supply d).

#[global] Instance model_inst : Model t.
Proof.
  refine {| m_foreign_keys := foreign_keys; m_fk_shape := fk_shape;
            m_unique_keys := unique_keys; m_clean_fields := clean_fields;
            m_pre_save := pre_save; m_set_null := set_null |}; model_laws.
Defined.

End SupplyDocument.
