(* ===== verification/Shipments.v ===== *)
(** * shipments/models.py: [Shipment], [ShipmentOrder], [ShipmentDocument]

    An outbound shipment from a warehouse, with a [status] among
    [SHIPMENT_STATUSES] (default [draft]), and the junction rows that put
    orders in it.  The junction is unique per (shipment, order) only: the
    declaration does not keep an order out of two shipments. *)

From S2P Require Import Prelude Django.

Module Shipment.

(** [SHIPMENT_STATUSES] *)
Definition SHIPMENT_STATUSES : list (string * string) :=
  [("draft", "Draft"); ("pending", "Pending"); ("approved", "Approved");
   ("shipped", "Shipped"); ("delivered", "Delivered"); ("cancelled", "Cancelled")].

Inductive shipment_status := Draft | Pending | Approved | Shipped | Delivered | Cancelled.

#[export] Instance shipment_status_eq_dec : EqDecision shipment_status.
Proof. solve_decision. Defined.

Definition status_value (s : shipment_status) : string :=
  match s with
  | Draft => "draft" | Pending => "pending" | Approved => "approved"
  | Shipped => "shipped" | Delivered => "delivered" | Cancelled => "cancelled"
  end.

Definition all_statuses : list shipment_status :=
  [Draft; Pending; Approved; Shipped; Delivered; Cancelled].

Definition status_of_value : string -> option shipment_status :=
  enum_of_value status_value all_statuses.

(** [class Shipment(models.Model)] *)
Record t := mk {
  company : Z;
  warehouse : Z;
  status : string;
  shipment_date : Z;
  transport_company : option string;
  tracking_number : option string;
  pallets_count : Z;
  boxes_count : Z;
  total_weight : decimal;
  comment : option string;
  created_at : Z;
  updated_at : Z
}.

(** [total_weight] defaults to [0]. *)
Definition create (company warehouse shipment_date : Z) : t :=
  mk company warehouse "draft" shipment_date None None 0 0 (mk_decimal false 0 0) None 0 0.

Definition clean_fields (s : t) : bool :=
  choice_field 20 SHIPMENT_STATUSES (status s) &&
  opt_field (char_field 255 true) (transport_company s) &&
  opt_field (char_field 100 true) (tracking_number s) &&
  int_field (pallets_count s) && int_field (boxes_count s) &&
  decimal_field 10 2 (total_weight s) &&
  opt_field (text_field true) (comment s).

Definition foreign_keys (s : t) : list fk :=
  [mk_fk "company" MCompany CASCADE (Some (company s));
   mk_fk "warehouse" MWarehouse CASCADE (Some (warehouse s))].

Definition fk_shape : list (string * model * on_delete) :=
  [("company", MCompany, CASCADE); ("warehouse", MWarehouse, CASCADE)].

Definition unique_keys (s : t) : list unique := [].

Definition pre_save (add : bool) (now : Z) (s : t) : t :=
  mk (company s) (warehouse s) (status s) (shipment_date s) (transport_company s)
     (tracking_number s) (pallets_count s) (boxes_count s) (total_weight s)
     (comment s) (if add then now else created_at s) now.

Definition set_null (n : string) (s : t) : t := s.

(** [__str__]: [f"Shipment #{self.id} ({self.get_status_display()})"] *)
Definition str (id : Z) (s : t) : string :=
  "Shipment #" ++ pretty id ++ " (" ++ display SHIPMENT_STATUSES (status s) ++ ")".

#[global] Instance model_inst : Model t.
Proof.
  refine {| m_foreign_keys := foreign_keys; m_fk_shape := fk_shape;
            m_unique_keys := unique_keys; m_clean_fields := clean_fields;
            m_pre_save := pre_save; m_set_null := set_null |}; model_laws.
Defined.

End Shipment.

Module ShipmentOrder.

(** [class ShipmentOrder(models.Model)] *)
Record t := mk { shipment : Z; order : Z; created_at : Z }.

Definition create (shipment order : Z) : t := mk shipment order 0.

Definition clean_fields (l : t) : bool := true.

Definition foreign_keys (l : t) : list fk :=
  [mk_fk "shipment" MShipment CASCADE (Some (shipment l));
   mk_fk "order" MOrder CASCADE (Some (order l))].

Definition fk_shape : list (string * model * on_delete) :=
  [("shipment", MShipment, CASCADE); ("order", MOrder, CASCADE)].

(** [unique_together = ('shipment', 'order')] *)
Definition unique_keys (l : t) : list unique :=
  [mk_unique "shipment,order" [UId (shipment l); UId (order l)]].

Definition pre_save (add : bool) (now : Z) (l : t) : t :=
  mk (shipment l) (order l) (if add then now else created_at l).

Definition set_null (n : string) (l : t) : t := l.

(** [__str__]: [f"Order {self.order.external_id} in Shipment #{self.shipment.id}"],
    given the related order's external id. *)
Definition str (order_external_id : string) (l : t) : string :=
  "Order " ++ order_external_id ++ " in Shipment #" ++ pretty (shipment l).

#[global] Instance model_inst : Model t.
Proof.
  refine {| m_foreign_keys := foreign_keys; m_fk_shape := fk_shape;
            m_unique_keys := unique_keys; m_clean_fields := clean_fields;
            m_pre_save := pre_save; m_set_null := set_null |}; model_laws.
Defined.

End ShipmentOrder.

Module ShipmentDocument.

(** [class ShipmentDocument(models.Model)] *)
Record t := mk { shipment : Z; name : string; file : string; created_at : Z }.

Definition clean_fields (d : t) : bool :=
  char_field 255 false (name d) && char_field 100 false (file d).

Definition foreign_keys (d : t) : list fk :=
  [mk_fk "shipment" MShipment CASCADE (Some (shipment d))].

Definition fk_shape : list (string * model * on_delete) := [("shipment", MShipment, CASCADE)].

Definition unique_keys (d : t) : list unique := [].

Definition pre_save (add : bool) (now : Z) (d : t) : t :=
  mk (shipment d) (name d) (file d) (if add then now else created_at d).

Definition set_null (n : string) (d : t) : t := d.

(** [__str__]: [f"{self.name} for Shipment #{self.shipment.id}"] *)
Definition str (d : t) : string := name d ++ " for Shipment #" ++ pretty (shipment d).

#[global] Instance model_inst : Model t.
Proof.
  refine {| m_foreign_keys := foreign_keys; m_fk_shape := fk_shape;
            m_unique_keys := unique_keys; m_clean_fields := clean_fields;
            m_pre_save := pre_save; m_set_null := set_null |}; model_laws.
Defined.

End ShipmentDocument.
