(* ===== verification/Services.v ===== *)
(** * services/models.py: [Service], [ServiceRequest], [ServiceRequestItem]

    Ancillary services of a company (packaging, labelling, ...), requests
    for them at a warehouse with a [status] among [REQUEST_STATUSES]
    (default [new]), and the products a request covers with a processed
    count. *)

From S2P Require Import Prelude Django.

Module Service.

(** [SERVICE_TYPES] and the inline [price_type] choices. *)
Definition SERVICE_TYPES : list (string * string) :=
  [("packaging", "Packaging"); ("labeling", "Labeling"); ("photo", "Photography");
   ("inspection", "Inspection"); ("repair", "Repair"); ("other", "Other")].

Definition PRICE_TYPES : list (string * string) :=
  [("fixed", "Fixed"); ("per_item", "Per item"); ("per_hour", "Per hour")].

(** [class Service(models.Model)] *)
Record t := mk {
  name : string;
  type : string;
  description : option string;
  company : Z;
  price : decimal;
  price_type : string;
  is_active : bool;
  created_at : Z;
  updated_at : Z
}.

Definition create (name type : string) (company : Z) (price : decimal) : t :=
  mk name type None company price "fixed" true 0 0.

Definition clean_fields (s : t) : bool :=
  char_field 255 false (name s) &&
  choice_field 20 SERVICE_TYPES (type s) &&
  opt_field (text_field true) (description s) &&
  decimal_field 10 2 (price s) &&
  choice_field 10 PRICE_TYPES (price_type s).

Definition foreign_keys (s : t) : list fk :=
  [mk_fk "company" MCompany CASCADE (Some (company s))].

Definition fk_shape : list (string * model * on_delete) := [("company", MCompany, CASCADE)].

Definition unique_keys (s : t) : list unique := [].

Definition pre_save (add : bool) (now : Z) (s : t) : t :=
  mk (name s) (type s) (description s) (company s) (price s) (price_type s)
     (is_active s) (if add then now else created_at s) now.

Definition set_null (n : string) (s : t) : t := s.

(** [__str__]: [f"{self.name} ({self.get_type_display()})"] *)
Definition str (s : t) : string := name s ++ " (" ++ display SERVICE_TYPES (type s) ++ ")".

#[global] Instance model_inst : Model t.
Proof.
  refine {| m_foreign_keys := foreign_keys; m_fk_shape := fk_shape;
            m_unique_keys := unique_keys; m_clean_fields := clean_fields;
            m_pre_save := pre_save; m_set_null := set_null |}; model_laws.
Defined.

End Service.

Module ServiceRequest.

(** [REQUEST_STATUSES] *)
Definition REQUEST_STATUSES : list (string * string) :=
  [("new", "New"); ("in_progress", "In progress"); ("completed", "Completed");
   ("cancelled", "Cancelled")].

(** [class ServiceRequest(models.Model)] *)
Record t := mk {
  service : Z;
  company : Z;
  warehouse : Z;
  status : string;
  quantity : Z;
  planned_date : Z;
  completed_date : option Z;
  total_cost : decimal;
  comment : option string;
  created_at : Z;
  updated_at : Z
}.

(** [status] defaults to ['new'], [quantity] to [1]. *)
Definition create (service company warehouse planned_date : Z) (total_cost : decimal) : t :=
  mk service company warehouse "new" 1 planned_date None total_cost None 0 0.

Definition clean_fields (r : t) : bool :=
  choice_field 20 REQUEST_STATUSES (status r) &&
  int_field (quantity r) &&
  decimal_field 10 2 (total_cost r) &&
  opt_field (text_field true) (comment r).

Definition foreign_keys (r : t) : list fk :=
  [mk_fk "service" MService CASCADE (Some (service r));
   mk_fk "company" MCompany CASCADE (Some (company r));
   mk_fk "warehouse" MWarehouse CASCADE (Some (warehouse r))].

Definition fk_shape : list (string * model * on_delete) :=
  [("service", MService, CASCADE); ("company", MCompany, CASCADE);
   ("warehouse", MWarehouse, CASCADE)].

Definition unique_keys (r : t) : list unique := [].

Definition pre_save (add : bool) (now : Z) (r : t) : t :=
  mk (service r) (company r) (warehouse r) (status r) (quantity r) (planned_date r)
     (completed_date r) (total_cost r) (comment r) (if add then now else created_at r) now.

Definition set_null (n : string) (r : t) : t := r.

(** [__str__]: [f"{self.service.name} request #{self.id} ({self.get_status_display()})"],
    given the related service's name. *)
Definition str (service_name : string) (id : Z) (r : t) : string :=
  service_name ++ " request #" ++ pretty id ++ " (" ++ display REQUEST_STATUSES (status r) ++ ")".

#[global] Instance model_inst : Model t.
Proof.
  refine {| m_foreign_keys := foreign_keys; m_fk_shape := fk_shape;
            m_unique_keys := unique_keys; m_clean_fields := clean_fields;
            m_pre_save := pre_save; m_set_null := set_null |}; model_laws.
Defined.

End ServiceRequest.

Module ServiceRequestItem.

(** [class ServiceRequestItem(models.Model)] *)
Record t := mk {
  service_request : Z;
  product : Z;
  quantity : Z;
  quantity_processed : Z;
  is_completed : bool;
  created_at : Z
}.

Definition clean_fields (i : t) : bool :=
  int_field (quantity i) && int_field (quantity_processed i).

Definition foreign_keys (i : t) : list fk :=
  [mk_fk "service_request" MServiceRequest CASCADE (Some (service_request i));
   mk_fk "product" MProduct CASCADE (Some (product i))].

Definition fk_shape : list (string * model * on_delete) :=
  [("service_request", MServiceRequest, CASCADE); ("product", MProduct, CASCADE)].

Definition unique_keys (i : t) : list unique := [].

Definition pre_save (add : bool) (now : Z) (i : t) : t :=
  mk (service_request i) (product i) (quantity i) (quantity_processed i)
     (is_completed i) (if add then now else created_at i).

Definition set_null (n : string) (i : t) : t := i.

(** [__str__]: [f"{self.product.name} x{self.quantity} in Service request #{self.service_request.id}"],
    given the related product's name. *)
Definition str (product_name : string) (i : t) : string :=
  product_name ++ " x" ++ pretty (quantity i) ++ " in Service request #" ++ pretty (service_request i).

#[global] Instance model_inst : Model t.
Proof.
  refine {| m_foreign_keys := foreign_keys; m_fk_shape := fk_shape;
            m_unique_keys := unique_keys; m_clean_fields := clean_fields;
            m_pre_save := pre_save; m_set_null := set_null |}; model_laws.
Defined.

End ServiceRequestItem.
