(* ===== verification/Reports.v ===== *)
(** * reports/models.py: [Report], [Inventory], [InventoryItem]

    Generated reports of a company; inventories (stock counts) of a
    warehouse with a [status] among [INVENTORY_STATUSES] (default
    [draft]); and their items, each with an [expected_quantity], an
    optional counted [actual_quantity] and a stored [has_discrepancy]
    flag that the declaration does not tie to the two quantities. *)

From S2P Require Import Prelude Django.

Module Report.

(** [REPORT_TYPES] and [REPORT_FORMATS] *)
Definition REPORT_TYPES : list (string * string) :=
  [("inventory", "Inventory"); ("sales", "Sales"); ("orders", "Orders");
   ("supplies", "Supplies"); ("shipments", "Shipments"); ("services", "Services");
   ("financial", "Financial"); ("custom", "Custom")].

Definition REPORT_FORMATS : list (string * string) :=
  [("pdf", "PDF"); ("excel", "Excel"); ("csv", "CSV")].

(** [class Report(models.Model)]; [parameters] is the serialised JSON. *)
Record t := mk {
  name : string;
  type : string;
  format : string;
  company : Z;
  parameters : option string;
  file : option string;
  is_generated : bool;
  generation_date : option Z;
  created_at : Z;
  updated_at : Z
}.

Definition clean_fields (r : t) : bool :=
  char_field 255 false (name r) &&
  choice_field 20 REPORT_TYPES (type r) &&
  choice_field 10 REPORT_FORMATS (format r) &&
  opt_field (char_field 100 true) (file r).

Definition foreign_keys (r : t) : list fk :=
  [mk_fk "company" MCompany CASCADE (Some (company r))].

Definition fk_shape : list (string * model * on_delete) := [("company", MCompany, CASCADE)].

Definition unique_keys (r : t) : list unique := [].

Definition pre_save (add : bool) (now : Z) (r : t) : t :=
  mk (name r) (type r) (format r) (company r) (parameters r) (file r)
     (is_generated r) (generation_date r) (if add then now else created_at r) now.

Definition set_null (n : string) (r : t) : t := r.

Definition str (r : t) : string := name r ++ " (" ++ display REPORT_TYPES (type r) ++ ")".

#[global] Instance model_inst : Model t.
Proof.
  refine {| m_foreign_keys := foreign_keys; m_fk_shape := fk_shape;
            m_unique_keys := unique_keys; m_clean_fields := clean_fields;
            m_pre_save := pre_save; m_set_null := set_null |}; model_laws.
Defined.

End Report.

Module Inventory.

(** [INVENTORY_STATUSES] *)
Definition INVENTORY_STATUSES : list (string * string) :=
  [("draft", "Draft"); ("in_progress", "In progress"); ("completed", "Completed");
   ("cancelled", "Cancelled")].

Inductive inventory_status := Draft | InProgress | Completed | Cancelled.

#[export] Instance inventory_status_eq_dec : EqDecision inventory_status.
Proof. solve_decision. Defined.

Definition status_value (s : inventory_status) : string :=
  match s with
  | Draft => "draft" | InProgress => "in_progress" | Completed => "completed"
  | Cancelled => "cancelled"
  end.

Definition all_statuses : list inventory_status := [Draft; InProgress; Completed; Cancelled].

Definition status_of_value : string -> option inventory_status :=
  enum_of_value status_value all_statuses.

(** [class Inventory(models.Model)] *)
Record t := mk {
  company : Z;
  warehouse : Z;
  name : string;
  status : string;
  start_date : Z;
  end_date : option Z;
  comment : option string;
  created_at : Z;
  updated_at : Z
}.

Definition create (company warehouse : Z) (name : string) (start_date : Z) : t :=
  mk company warehouse name "draft" start_date None None 0 0.

Definition clean_fields (i : t) : bool :=
  char_field 255 false (name i) &&
  choice_field 20 INVENTORY_STATUSES (status i) &&
  opt_field (text_field true) (comment i).

Definition foreign_keys (i : t) : list fk :=
  [mk_fk "company" MCompany CASCADE (Some (company i));
   mk_fk "warehouse" MWarehouse CASCADE (Some (warehouse i))].

Definition fk_shape : list (string * model * on_delete) :=
  [("company", MCompany, CASCADE); ("warehouse", MWarehouse, CASCADE)].

Definition unique_keys (i : t) : list unique := [].

Definition pre_save (add : bool) (now : Z) (i : t) : t :=
  mk (company i) (warehouse i) (name i) (status i) (start_date i) (end_date i)
     (comment i) (if add then now else created_at i) now.

Definition set_null (n : string) (i : t) : t := i.

Definition str (i : t) : string :=
  name i ++ " (" ++ display INVENTORY_STATUSES (status i) ++ ")".

#[global] Instance model_inst : Model t.
Proof.
  refine {| m_foreign_keys := foreign_keys; m_fk_shape := fk_shape;
            m_unique_keys := unique_keys; m_clean_fields := clean_fields;
            m_pre_save := pre_save; m_set_null := set_null |}; model_laws.
Defined.

End Inventory.

Module InventoryItem.

(** [class InventoryItem(models.Model)] *)
Record t := mk {
  inventory : Z;
  product : Z;
  expected_quantity : Z;
  actual_quantity : option Z;
  is_checked : bool;
  has_discrepancy : bool;
  discrepancy_reason : option string;
  created_at : Z;
  updated_at : Z
}.

Definition create (inventory product expected_quantity : Z) : t :=
  mk inventory product expected_quantity None false false None 0 0.

Definition clean_fields (i : t) : bool :=
  int_field (expected_quantity i) &&
  opt_field int_field (actual_quantity i) &&
  opt_field (text_field true) (discrepancy_reason i).

Definition foreign_keys (i : t) : list fk :=
  [mk_fk "inventory" MInventory CASCADE (Some (inventory i));
   mk_fk "product" MProduct CASCADE (Some (product i))].

Definition fk_shape : list (string * model * on_delete) :=
  [("inventory", MInventory, CASCADE); ("product", MProduct, CASCADE)].

Definition unique_keys (i : t) : list unique := [].

Definition pre_save (add : bool) (now : Z) (i : t) : t :=
  mk (inventory i) (product i) (expected_quantity i) (actual_quantity i)
     (is_checked i) (has_discrepancy i) (discrepancy_reason i)
     (if add then now else created_at i) now.

Definition set_null (n : string) (i : t) : t := i.

(** [__str__]: [f"{self.product.name} in Inventory {self.inventory.name}"],
    given the names of the related product and inventory. *)
Definition str (product_name inventory_name : string) (i : t) : string :=
  product_name ++ " in Inventory " ++ inventory_name.

#[global] Instance model_inst : Model t.
Proof.
  refine {| m_foreign_keys := foreign_keys; m_fk_shape := fk_shape;
            m_unique_keys := unique_keys; m_clean_fields := clean_fields;
            m_pre_save := pre_save; m_set_null := set_null |}; model_laws.
Defined.

End InventoryItem.
