(* ===== verification/Database.v ===== *)
(** * The database under the models: constraints and [save]

    Every table of the schema lives in one store keyed by (model, primary
    key).  A row is a value of its model's record, packed with its model
    tag; the operations below read a row only through the [Model]
    interface of [Django.v], so they and their theorems hold for every
    model class at once:

    - [insert] is [Model.save()] of a new instance ([objects.create]):
      [pre_save] stamps the [auto_now]/[auto_now_add] fields, the
      primary key is the next value of the model's sequence, and the
      database refuses a row whose foreign key names no row or that
      repeats the value of a unique constraint ([IntegrityError]);
    - [update] is [save()] of an instance fetched from the database.

    [delete] and the Collector are in [Cascades.v].

    [wf] is the state every constraint of the schema describes: each row
    under its own model with a key below its sequence, every non-NULL
    foreign key naming a row, every unique constraint held by one row. *)

From S2P Require Import Prelude Django Companies Users Api Products Warehouses Orders Supplies Shipments Services Reports.

(** ** Rows *)

(** The record type of each model class. *)
Definition model_type (m : model) : Type :=
  match m with
  | MCompany => Company.t | MUser => User.t | MMarketplace => Marketplace.t
  | MProduct => Product.t | MProductImage => ProductImage.t
  | MProductMarketplace => ProductMarketplace.t
  | MWarehouse => Warehouse.t | MStorageUnit => StorageUnit.t
  | MOrder => Order.t | MOrderItem => OrderItem.t
  | MSupply => Supply.t | MSupplyItem => SupplyItem.t
  | MSupplyDocument => SupplyDocument.t
  | MShipment => Shipment.t | MShipmentOrder => ShipmentOrder.t
  | MShipmentDocument => ShipmentDocument.t
  | MService => Service.t | MServiceRequest => ServiceRequest.t
  | MServiceRequestItem => ServiceRequestItem.t
  | MReport => Report.t | MInventory => Inventory.t | MInventoryItem => InventoryItem.t
  end.

(** The [Model] instance of each model class. *)
Definition model_inst (m : model) : Model (model_type m) :=
  match m return Model (model_type m) with
  | MCompany => Company.model_inst | MUser => User.model_inst
  | MMarketplace => Marketplace.model_inst
  | MProduct => Product.model_inst | MProductImage => ProductImage.model_inst
  | MProductMarketplace => ProductMarketplace.model_inst
  | MWarehouse => Warehouse.model_inst | MStorageUnit => StorageUnit.model_inst
  | MOrder => Order.model_inst | MOrderItem => OrderItem.model_inst
  | MSupply => Supply.model_inst | MSupplyItem => SupplyItem.model_inst
  | MSupplyDocument => SupplyDocument.model_inst
  | MShipment => Shipment.model_inst | MShipmentOrder => ShipmentOrder.model_inst
  | MShipmentDocument => ShipmentDocument.model_inst
  | MService => Service.model_inst | MServiceRequest => ServiceRequest.model_inst
  | MServiceRequestItem => ServiceRequestItem.model_inst
  | MReport => Report.model_inst | MInventory => Inventory.model_inst
  | MInventoryItem => InventoryItem.model_inst
  end.

Abbreviation row := (sigT model_type) (only parsing).

Abbreviation key := (model * Z)%type (only parsing).

Definition row_fks (r : row) : list fk :=
  @m_foreign_keys _ (model_inst (projT1 r)) (projT2 r).

Definition row_uniques (r : row) : list unique :=
  @m_unique_keys _ (model_inst (projT1 r)) (projT2 r).

Definition row_clean (r : row) : bool :=
  @m_clean_fields _ (model_inst (projT1 r)) (projT2 r).

Definition row_pre_save (add : bool) (now : Z) (r : row) : row :=
  existT (projT1 r) (@m_pre_save _ (model_inst (projT1 r)) add now (projT2 r)).

Definition row_set_null (n : string) (r : row) : row :=
  existT (projT1 r) (@m_set_null _ (model_inst (projT1 r)) n (projT2 r)).

(** ** The store *)

Record db := mk_db {
  rows : gmap key row;
  seqs : gmap model Z
}.

Definition empty_db : db := mk_db ∅ ∅.

(** The next value of a model's primary-key sequence (ids start at 1). *)
Definition next_id (m : model) (d : db) : Z := default 1%Z (seqs d !! m).

Inductive db_error :=
| IntegrityFk (field : string) (target : key)
| IntegrityUnique (constraint : string)
| DoesNotExist (k : key).

(** A foreign key holds when it is NULL or names a row. *)
Definition fk_ok (d : db) (f : fk) : bool :=
  match fk_val f with
  | None => true
  | Some v => bool_decide (is_Some (rows d !! (fk_to f, v)))
  end.

(** A unique value is taken when another row of the model holds it. *)
Definition uq_taken (d : db) (k : key) (u : unique) : bool :=
  existsb (fun kr : key * row =>
             bool_decide (kr.1 <> k /\ kr.1.1 = k.1 /\ u ∈ row_uniques kr.2))
          (map_to_list (rows d)).

(** The checks the database runs on the row it is given to store at [k]:
    foreign keys first, then unique constraints. *)
Definition check_row (d : db) (k : key) (r : row) : res unit db_error :=
  match find (fun f => negb (fk_ok d f)) (row_fks r) with
  | Some f => Err (IntegrityFk (fk_name f) (fk_to f, default 0%Z (fk_val f)))
  | None =>
      match find (uq_taken d k) (row_uniques r) with
      | Some u => Err (IntegrityUnique (uq_name u))
      | None => Ok tt
      end
  end.

(** [save()] of a new instance: stamp, draw the id, check, store. *)
Definition insert (now : Z) (r : row) (d : db) : res (Z * db) db_error :=
  let m := projT1 r in
  let r' := row_pre_save true now r in
  let id := next_id m d in
  let! _ := check_row d (m, id) r' in
  Ok (id, mk_db (<[(m, id) := r']> (rows d)) (<[m := (id + 1)%Z]> (seqs d))).

(** [save()] of an instance fetched from the database, under its id. *)
Definition update (now : Z) (id : Z) (r : row) (d : db) : res db db_error :=
  let k := (projT1 r, id) in
  match rows d !! k with
  | None => Err (DoesNotExist k)
  | Some _ =>
      let r' := row_pre_save false now r in
      let! _ := check_row d k r' in
      Ok (mk_db (<[k := r']> (rows d)) (seqs d))
  end.

(** ** The invariant *)

Definition keys_ok (d : db) : Prop :=
  forall k r, rows d !! k = Some r -> projT1 r = k.1 /\ (k.2 < next_id k.1 d)%Z.

Definition fks_ok (d : db) : Prop :=
  forall k r f v, rows d !! k = Some r -> f ∈ row_fks r -> fk_val f = Some v ->
  is_Some (rows d !! (fk_to f, v)).

Definition uniques_ok (d : db) : Prop :=
  forall k1 k2 r1 r2 u, rows d !! k1 = Some r1 -> rows d !! k2 = Some r2 ->
  k1.1 = k2.1 -> u ∈ row_uniques r1 -> u ∈ row_uniques r2 -> k1 = k2.

Definition wf (d : db) : Prop := keys_ok d /\ fks_ok d /\ uniques_ok d.

(** ** The interface laws, lifted to rows *)

Lemma row_fks_pre_save add now r : row_fks (row_pre_save add now r) = row_fks r.
Proof. destruct r as [m a]. apply m_pre_save_fks. Qed.

Lemma row_uniques_pre_save add now r : row_uniques (row_pre_save add now r) = row_uniques r.
Proof. destruct r as [m a]. apply m_pre_save_uniques. Qed.

Lemma row_fks_set_null n r : row_fks (row_set_null n r) = map (null_fk n) (row_fks r).
Proof. destruct r as [m a]. apply m_set_null_fks. Qed.

Lemma row_uniques_set_null n r : row_uniques (row_set_null n r) = row_uniques r.
Proof. destruct r as [m a]. apply m_set_null_uniques. Qed.

Lemma row_fk_shape r : map fk_sig (row_fks r) = @m_fk_shape _ (model_inst (projT1 r)).
Proof. destruct r as [m a]. apply m_fk_shape_spec. Qed.

Create Rewrite HintDb wms_rows.
#[export] Hint Rewrite row_fks_pre_save row_uniques_pre_save row_fks_set_null
  row_uniques_set_null : wms_rows.

(** ** The checks *)

Lemma fk_ok_true d f :
  fk_ok d f = true <-> forall v, fk_val f = Some v -> is_Some (rows d !! (fk_to f, v)).
Proof.
  unfold fk_ok. destruct (fk_val f) as [v|]; [|naive_solver].
  rewrite bool_decide_eq_true. naive_solver.
Qed.

Lemma uq_taken_false d k u :
  uq_taken d k u = false <->
  forall k' r', rows d !! k' = Some r' -> k' <> k -> k'.1 = k.1 -> u ∉ row_uniques r'.
Proof.
  unfold uq_taken. rewrite <- Bool.not_true_iff_false, existsb_exists. split.
  - intros H k' r' Hk' Hne Hm Hu. apply H. exists (k', r').
    rewrite <- elem_of_map_to_list in Hk'. split; [by apply list_elem_of_In|].
    by apply bool_decide_eq_true.
  - intros H [[k' r'] [Hin Hb]]. apply bool_decide_eq_true in Hb as (Hne & Hm & Hu).
    apply list_elem_of_In, elem_of_map_to_list in Hin. eapply H; eauto.
Qed.

Lemma check_row_Ok d k r :
  check_row d k r = Ok tt <->
  (forall f, In f (row_fks r) -> fk_ok d f = true) /\
  (forall u, In u (row_uniques r) -> uq_taken d k u = false).
Proof.
  unfold check_row.
  destruct (find (fun f => negb (fk_ok d f)) (row_fks r)) as [f|] eqn:Hf.
  - split; [discriminate|]. intros [H _].
    destruct (find_some _ _ Hf) as [Hin Hn]. rewrite (H f Hin) in Hn. discriminate.
  - pose proof (proj1 (find_None_iff _ _) Hf) as Hf'. clear Hf.
    destruct (find (uq_taken d k) (row_uniques r)) as [u|] eqn:Hu.
    + split; [discriminate|]. intros [_ H].
      destruct (find_some _ _ Hu) as [Hin Ht]. rewrite (H u Hin) in Ht. discriminate.
    + pose proof (proj1 (find_None_iff _ _) Hu) as Hu'. split; [|intros; reflexivity]. intros _. split.
      * intros f Hin. specialize (Hf' f Hin). cbv beta in Hf'. destruct (fk_ok d f); simpl in *; congruence.
      * exact Hu'.
Qed.

(** ** Storing a row keeps the invariant

    [insert] and [update] both store a checked row; these lemmas are the
    part of the invariant proof they share. *)

Lemma fresh_next_id d m : keys_ok d -> rows d !! (m, next_id m d) = None.
Proof.
  intros Hk. destruct (rows d !! (m, next_id m d)) as [r|] eqn:E; [|done].
  destruct (Hk _ _ E) as [_ Hlt]. simpl in Hlt. lia.
Qed.

Lemma fks_ok_store d k r s :
  fks_ok d -> (forall f, In f (row_fks r) -> fk_ok d f = true) ->
  fks_ok (mk_db (<[k:=r]> (rows d)) s).
Proof.
  intros Hok Hr k' r' f v Hk' Hf Hv. simpl in *.
  apply lookup_insert_is_Some'. right.
  apply lookup_insert_Some in Hk' as [[<- <-]|[_ Hk']].
  - apply list_elem_of_In in Hf. by apply (proj1 (fk_ok_true d f) (Hr f Hf)).
  - eauto.
Qed.

Lemma uniques_ok_store d k r s :
  uniques_ok d -> (forall u, In u (row_uniques r) -> uq_taken d k u = false) ->
  uniques_ok (mk_db (<[k:=r]> (rows d)) s).
Proof.
  intros Hok Hr k1 k2 r1 r2 u H1 H2 Hm Hu1 Hu2. simpl in *.
  apply lookup_insert_Some in H1 as [[<- <-]|[Hne1 H1]];
  apply lookup_insert_Some in H2 as [[<- <-]|[Hne2 H2]]; try done.
  - apply list_elem_of_In in Hu1. exfalso.
    apply (proj1 (uq_taken_false d k u) (Hr u Hu1) k2 r2); auto.
  - apply list_elem_of_In in Hu2. exfalso.
    apply (proj1 (uq_taken_false d k u) (Hr u Hu2) k1 r1); auto.
  - eauto.
Qed.

Lemma keys_ok_store_new d m r :
  keys_ok d -> projT1 r = m ->
  keys_ok (mk_db (<[(m, next_id m d):=r]> (rows d)) (<[m := (next_id m d + 1)%Z]> (seqs d))).
Proof.
  intros Hk Hr k' r' Hk'. simpl in Hk'. unfold next_id in *; simpl.
  apply lookup_insert_Some in Hk' as [[<- <-]|[Hne Hk']].
  - simpl. rewrite lookup_insert_eq. simpl. split; [done | lia].
  - destruct (Hk _ _ Hk') as [Hm Hlt]. split; [done|].
    destruct k' as [m' i]; simpl in *.
    destruct (decide (m' = m)) as [->|Hne'].
    + rewrite lookup_insert_eq. simpl. unfold next_id in Hlt. lia.
    + rewrite lookup_insert_ne by congruence. exact Hlt.
Qed.

Lemma keys_ok_store_old d k r :
  keys_ok d -> is_Some (rows d !! k) -> projT1 r = k.1 ->
  keys_ok (mk_db (<[k:=r]> (rows d)) (seqs d)).
Proof.
  intros Hk [r0 H0] Hr k' r' Hk'. unfold next_id. simpl in *.
  apply lookup_insert_Some in Hk' as [[<- <-]|[_ Hk']]; [|by apply Hk].
  split; [done|]. apply (Hk _ _ H0).
Qed.

Lemma insert_Ok now r d id d' :
  insert now r d = Ok (id, d') <->
  id = next_id (projT1 r) d /\
  check_row d (projT1 r, id) (row_pre_save true now r) = Ok tt /\
  d' = mk_db (<[(projT1 r, id) := row_pre_save true now r]> (rows d))
             (<[projT1 r := (id + 1)%Z]> (seqs d)).
Proof.
  unfold insert.
  destruct (check_row d _ _) as [[]|e] eqn:E; simpl.
  - split; [intros [= <- <-]; auto | intros (-> & _ & ->); reflexivity].
  - split; [discriminate | intros (-> & H & _); congruence].
Qed.

(** Inserting a checked row keeps the invariant. *)
Lemma insert_preserves_wf_lemma now r d id d' :
  wf d -> insert now r d = Ok (id, d') -> wf d'.
Proof.
  intros (Hk & Hf & Hu) Hins.
  apply insert_Ok in Hins as (-> & Hc & ->).
  apply check_row_Ok in Hc as [Hcf Hcu].
  rewrite row_fks_pre_save in Hcf. rewrite row_uniques_pre_save in Hcu.
  split; [|split].
  - by apply keys_ok_store_new.
  - apply fks_ok_store; [done|]. by rewrite row_fks_pre_save.
  - apply uniques_ok_store; [done|]. by rewrite row_uniques_pre_save.
Qed.

(** C1: Inserting a row ([save()] of a new instance of any model) keeps every
    constraint of the schema: keys under their model and below their
    sequence, foreign keys naming rows, unique values held once. *)
Theorem insert_preserves_wf now r d id d' :
  wf d -> insert now r d = Ok (id, d') -> wf d'.
Proof. apply insert_preserves_wf_lemma. Qed.

(** What a successful insert does to the store. *)
Lemma insert_Ok_effect now r d id d' :
  keys_ok d -> insert now r d = Ok (id, d') ->
  rows d !! (projT1 r, id) = None /\
  rows d' !! (projT1 r, id) = Some (row_pre_save true now r) /\
  (forall k, k <> (projT1 r, id) -> rows d' !! k = rows d !! k) /\
  next_id (projT1 r) d' = (id + 1)%Z.
Proof.
  intros Hk Hins. apply insert_Ok in Hins as (-> & _ & ->).
  split; [by apply fresh_next_id|]. simpl.
  split; [apply lookup_insert_eq|]. split.
  - intros k Hne. by apply lookup_insert_ne.
  - unfold next_id at 1. simpl. by rewrite lookup_insert_eq.
Qed.

Lemma fk_ok_mono d d' f :
  (forall k, is_Some (rows d !! k) -> is_Some (rows d' !! k)) ->
  fk_ok d f = true -> fk_ok d' f = true.
Proof. rewrite !fk_ok_true. naive_solver. Qed.

Lemma uq_taken_true d k k' r' u :
  rows d !! k' = Some r' -> k' <> k -> k'.1 = k.1 -> u ∈ row_uniques r' ->
  uq_taken d k u = true.
Proof.
  intros H1 H2 H3 H4. destruct (uq_taken d k u) eqn:E; [done|].
  exfalso. eapply (proj1 (uq_taken_false d k u) E); eauto.
Qed.

(** The database refuses a row that repeats a unique value of a row of
    its model. *)
Lemma insert_refuses_duplicate now r d k r0 u :
  wf d -> rows d !! k = Some r0 -> k.1 = projT1 r ->
  u ∈ row_uniques r0 -> u ∈ row_uniques r ->
  exists e, insert now r d = Err e.
Proof.
  intros (Hk & _ & _) H0 Hm Hu0 Hu.
  destruct (insert now r d) as [[id d']|e] eqn:Hins; [|eauto].
  apply insert_Ok in Hins as (-> & Hc & _).
  apply check_row_Ok in Hc as [_ Hcu]. rewrite row_uniques_pre_save in Hcu.
  apply list_elem_of_In in Hu. specialize (Hcu u Hu).
  rewrite (uq_taken_true d _ k r0 u) in Hcu; [discriminate|done| |done|done].
  destruct (Hk _ _ H0) as [_ Hlt]. intros ->. simpl in Hlt. lia.
Qed.

(** C2: Idempotence of order ingestion at the database: once an order is
    stored, storing the same order again (a replayed marketplace event)
    is refused with the [unique_together] constraint on
    (marketplace, external_id), so one row per event remains. *)
Theorem order_insert_replay now now' (o : Order.t) d id d' :
  wf d -> insert now (existT MOrder o) d = Ok (id, d') ->
  insert now' (existT MOrder o) d' = Err (IntegrityUnique "marketplace,external_id").
Proof.
  intros Hwf Hins.
  destruct (insert_Ok_effect _ _ _ _ _ (proj1 Hwf) Hins) as (Hfresh & Hnew & Hold & Hnext).
  pose proof Hins as Hins'. apply insert_Ok in Hins' as (-> & Hc & ->).
  apply check_row_Ok in Hc as [Hcf _]. rewrite row_fks_pre_save in Hcf.
  unfold insert, check_row. simpl projT1 in *. rewrite Hnext.
  rewrite (proj2 (find_None_iff _ _)).
  2:{ intros f Hf. rewrite row_fks_pre_save in Hf.
      rewrite (fk_ok_mono d); [done| |by apply Hcf].
      intros k' Hk'. simpl. apply lookup_insert_is_Some'. by right. }
  rewrite row_uniques_pre_save.
  cbn [row_uniques projT1 projT2 model_inst Order.model_inst m_unique_keys
       Order.unique_keys find].
  erewrite uq_taken_true; [reflexivity | exact Hnew | intros [=]; lia | reflexivity |].
  rewrite row_uniques_pre_save. left.
Qed.

(** Overwriting a stored row with a row of its model that passes the
    checks keeps the invariant. *)
Lemma store_over_wf d k r0 r :
  wf d -> rows d !! k = Some r0 -> projT1 r = k.1 -> check_row d k r = Ok tt ->
  wf (mk_db (<[k := r]> (rows d)) (seqs d)).
Proof.
  intros (Hk & Hf & Hu) H0 Hm Hc. apply check_row_Ok in Hc as [Hcf Hcu].
  split; [|split].
  - apply keys_ok_store_old; [done|eauto|done].
  - by apply fks_ok_store.
  - by apply uniques_ok_store.
Qed.

(** C6: Saving a fetched instance keeps every constraint of the schema: the
    row stays under its key, its foreign keys and unique values are
    checked against the other rows. *)
Theorem update_preserves_wf now id r d d' :
  wf d -> update now id r d = Ok d' -> wf d'.
Proof.
  intros Hwf Hup. unfold update in Hup.
  destruct (rows d !! (projT1 r, id)) as [r0|] eqn:H0; [|discriminate].
  destruct (check_row d _ _) as [[]|e] eqn:Hc; [|discriminate].
  simpl in Hup. injection Hup as <-. by eapply store_over_wf.
Qed.

(** ** What the invariant gives a reader of the database *)

(** In a well-formed database every non-NULL foreign key of a stored row
    names a row of the model the key is declared with. *)
Lemma fk_target_typed d k r f v :
  wf d -> rows d !! k = Some r -> f ∈ row_fks r -> fk_val f = Some v ->
  exists r', rows d !! (fk_to f, v) = Some r' /\ projT1 r' = fk_to f.
Proof.
  intros (Hk & Hf & _) Hr Hin Hv. destruct (Hf _ _ _ _ Hr Hin Hv) as [r' Hr'].
  exists r'. split; [done|]. by destruct (Hk _ _ Hr') as [-> _].
Qed.

(** Two rows of one model that hold the same value of a unique
    constraint are one row. *)
Lemma unique_identifies d k1 k2 m (x1 x2 : model_type m) u :
  wf d -> rows d !! k1 = Some (existT m x1) -> rows d !! k2 = Some (existT m x2) ->
  u ∈ row_uniques (existT m x1) -> u ∈ row_uniques (existT m x2) -> k1 = k2.
Proof.
  intros (Hk & _ & Hu) H1 H2 Hu1 Hu2.
  destruct (Hk _ _ H1) as [Hm1 _], (Hk _ _ H2) as [Hm2 _]. simpl in Hm1, Hm2.
  eapply Hu; eauto. congruence.
Qed.

(** C18: An order is identified by its marketplace and external id, as the
    design requires: two stored orders that agree on both are one row. *)
Theorem order_identified_by_external_id d k1 k2 (o1 o2 : Order.t) :
  wf d -> rows d !! k1 = Some (existT MOrder o1) -> rows d !! k2 = Some (existT MOrder o2) ->
  Order.marketplace o1 = Order.marketplace o2 -> Order.external_id o1 = Order.external_id o2 ->
  k1 = k2.
Proof.
  intros Hwf H1 H2 Hm He.
  apply (unique_identifies d k1 k2 MOrder o1 o2
           (mk_unique "marketplace,external_id" [UId (Order.marketplace o1); UStr (Order.external_id o1)]));
    [done..| |]; simpl; [|rewrite Hm, He]; left.
Qed.

(** C19: A storage unit is addressed by its code, as the design requires:
    two stored units with the same code are one row, whatever their
    warehouses. *)
Theorem storage_unit_code_identifies d k1 k2 (u1 u2 : StorageUnit.t) :
  wf d -> rows d !! k1 = Some (existT MStorageUnit u1) ->
  rows d !! k2 = Some (existT MStorageUnit u2) ->
  StorageUnit.code u1 = StorageUnit.code u2 -> k1 = k2.
Proof.
  intros Hwf H1 H2 Hc.
  apply (unique_identifies d k1 k2 MStorageUnit u1 u2
           (mk_unique "code" [UStr (StorageUnit.code u1)]));
    [done..| |]; simpl; [|rewrite Hc]; left.
Qed.

(** ** A decision procedure for the invariant *)

(** What [wf] asks of one stored row. *)
Definition row_ok (d : db) (k : key) (r : row) : Prop :=
  projT1 r = k.1 /\ (k.2 < next_id k.1 d)%Z /\
  (forall f, In f (row_fks r) -> fk_ok d f = true) /\
  (forall u, In u (row_uniques r) -> uq_taken d k u = false).

Definition row_ok_b (d : db) (kr : key * row) : bool :=
  bool_decide (projT1 kr.2 = kr.1.1) && (kr.1.2 <? next_id kr.1.1 d)%Z &&
  forallb (fk_ok d) (row_fks kr.2) &&
  forallb (fun u => negb (uq_taken d kr.1 u)) (row_uniques kr.2).

Definition wf_b (d : db) : bool := forallb (row_ok_b d) (map_to_list (rows d)).

Lemma row_ok_b_spec d k r : row_ok_b d (k, r) = true <-> row_ok d k r.
Proof.
  unfold row_ok_b, row_ok. simpl. rewrite !andb_true_iff, !forallb_forall.
  rewrite bool_decide_eq_true, Z.ltb_lt.
  setoid_rewrite negb_true_iff. tauto.
Qed.

(** [wf] is a property of each row. *)
Lemma wf_rows d : wf d <-> forall k r, rows d !! k = Some r -> row_ok d k r.
Proof.
  split.
  - intros (Hk & Hf & Hu) k r Hr. destruct (Hk k r Hr) as [Hm Hlt].
    split; [done|]. split; [done|]. split.
    + intros f Hin. apply fk_ok_true. intros v Hv. eapply Hf; [exact Hr | by apply list_elem_of_In | done].
    + intros u Hin. apply uq_taken_false. intros k' r' Hr' Hne Hm' Hu'.
      apply Hne, (Hu _ _ _ _ u Hr' Hr Hm' Hu'). by apply list_elem_of_In.
  - intros Hrow. split; [|split].
    + intros k r Hr. destruct (Hrow k r Hr) as (? & ? & _). done.
    + intros k r f v Hr Hf Hv. destruct (Hrow k r Hr) as (_ & _ & Hfk & _).
      apply list_elem_of_In in Hf. by apply (proj1 (fk_ok_true d f) (Hfk f Hf)).
    + intros k1 k2 r1 r2 u H1 H2 Hm Hu1 Hu2.
      destruct (decide (k2 = k1)) as [|Hne]; [done|]. exfalso.
      destruct (Hrow k1 r1 H1) as (_ & _ & _ & Hu).
      apply list_elem_of_In in Hu1.
      exact (proj1 (uq_taken_false d k1 u) (Hu u Hu1) k2 r2 H2 Hne (eq_sym Hm) Hu2).
Qed.

Lemma wf_b_rows d :
  wf_b d = true <-> forall k r, rows d !! k = Some r -> row_ok d k r.
Proof.
  unfold wf_b. rewrite forallb_forall. split.
  - intros H k r Hr. apply row_ok_b_spec, H, list_elem_of_In, elem_of_map_to_list, Hr.
  - intros H [k r] Hin. apply list_elem_of_In, elem_of_map_to_list in Hin.
    by apply row_ok_b_spec, H.
Qed.

Lemma wf_b_sound d : wf_b d = true -> wf d.
Proof. rewrite wf_b_rows, wf_rows. done. Qed.

Lemma wf_b_complete d : wf d -> wf_b d = true.
Proof. rewrite wf_b_rows, wf_rows. done. Qed.

(** The invariant is decidable, by [wf_b]. *)
#[global] Instance wf_dec d : Decision (wf d).
Proof.
  destruct (wf_b d) eqn:E; [left; by apply wf_b_sound | right].
  intros Hwf. apply wf_b_complete in Hwf. congruence.
Defined.

(** ** Saving a fetched instance again *)

(** [obj = M.objects.get(pk=id); obj.save()] never fails: the row's keys
    and unique values are those the database already holds. *)
Lemma update_fetched_Ok now id r d :
  wf d -> rows d !! (projT1 r, id) = Some r ->
  update now id r d = Ok (mk_db (<[(projT1 r, id) := row_pre_save false now r]> (rows d)) (seqs d)).
Proof.
  intros Hwf Hr. destruct (proj1 (wf_rows d) Hwf _ _ Hr) as (_ & _ & Hf & Hu).
  unfold update. rewrite Hr.
  assert (Hc : check_row d (projT1 r, id) (row_pre_save false now r) = Ok tt).
  { apply check_row_Ok. by rewrite row_fks_pre_save, row_uniques_pre_save. }
  by rewrite Hc.
Qed.

(** C22: The timestamps of an order across its life: the insert stamps
    [created_at] and [updated_at] with the time of the insert
    ([auto_now_add], [auto_now]); saving the fetched order again later
    succeeds, keeps [created_at] and moves [updated_at] to the time of
    the save. *)
Theorem order_timestamps now now' (o : Order.t) d id d1 :
  wf d -> insert now (existT MOrder o) d = Ok (id, d1) ->
  exists o1, rows d1 !! (MOrder, id) = Some (existT MOrder o1) /\
    Order.created_at o1 = now /\ Order.updated_at o1 = now /\
    exists d2 o2, update now' id (existT MOrder o1) d1 = Ok d2 /\
      rows d2 !! (MOrder, id) = Some (existT MOrder o2) /\
      Order.created_at o2 = now /\ Order.updated_at o2 = now'.
Proof.
  intros Hwf Hins. pose proof (insert_preserves_wf_lemma _ _ _ _ _ Hwf Hins) as Hwf1.
  destruct (insert_Ok_effect _ _ _ _ _ (proj1 Hwf) Hins) as (_ & Hnew & _).
  exists (Order.pre_save true now o). split; [exact Hnew|]. split; [done|]. split; [done|].
  eexists _, (Order.pre_save false now' (Order.pre_save true now o)).
  split; [apply (update_fetched_Ok now' id (existT MOrder (Order.pre_save true now o)) d1 Hwf1 Hnew)|].
  split; [apply lookup_insert_eq|]. done.
Qed.

(** ** A sample database, for the witnesses *)

(** [objects.create] of each row in turn, a refused one skipped. *)
Definition run_inserts (now : Z) (rs : list row) (d : db) : db :=
  fold_left (fun d r => match insert now r d with Ok (_, d') => d' | Err _ => d end) rs d.

Definition sample_price : decimal := mk_decimal false 129900 (-2).

Definition sample_order : Order.t :=
  Order.mk 1 1 "WB-1001" "ready_to_ship" (Some 1%Z) None None sample_price None None 0 0.

(** One company with a marketplace, a warehouse with a shelf, a product,
    an order shipped from the warehouse with one item, two shipments, the
    order's link to the first, and a stock count of the warehouse. *)
Definition sample_db : db :=
  run_inserts 1
    [existT MCompany (Company.create "Acme" "7701234567" "Moscow");
     existT MMarketplace (Marketplace.create "Acme WB" "wildberries" 1);
     existT MWarehouse (Warehouse.create "Main" "fulfillment" "Moscow" 1);
     existT MProduct (Product.create "Mug" "MUG-1" "4600000000011" 1);
     existT MOrder sample_order;
     existT MOrderItem (OrderItem.create 1 1 2 sample_price);
     existT MShipment (Shipment.create 1 1 20260101);
     existT MShipment (Shipment.create 1 1 20260102);
     existT MShipmentOrder (ShipmentOrder.create 1 1);
     existT MStorageUnit (StorageUnit.create 1 "Shelf A" "shelf" "A-01" None);
     existT MInventory (Inventory.create 1 1 "Q1 count" 20260101)]
    empty_db.

Lemma sample_db_wf : wf sample_db.
Proof. apply wf_b_sound. vm_compute. reflexivity. Qed.

(** ** Witnesses *)

Definition sample_order2 : row :=
  existT MOrder (Order.create 1 1 "WB-1002" sample_price).

Lemma insert_preserves_wf_witness :
  exists id d', insert 2 sample_order2 sample_db = Ok (id, d') /\ wf d'.
Proof.
  destruct (insert 2 sample_order2 sample_db) as [[id d']|e] eqn:E;
    [|vm_compute in E; discriminate].
  exists id, d'. split; [reflexivity|].
  exact (insert_preserves_wf 2 sample_order2 sample_db id d' sample_db_wf E).
Defined.

Lemma order_insert_replay_witness :
  exists id d', insert 2 sample_order2 sample_db = Ok (id, d') /\
    insert 3 sample_order2 d' = Err (IntegrityUnique "marketplace,external_id").
Proof.
  destruct (insert 2 sample_order2 sample_db) as [[id d']|e] eqn:E;
    [|vm_compute in E; discriminate].
  exists id, d'. split; [reflexivity|].
  exact (order_insert_replay 2 3 _ sample_db id d' sample_db_wf E).
Defined.

Lemma update_preserves_wf_witness :
  exists d', update 5 1 (existT MOrder sample_order) sample_db = Ok d' /\ wf d'.
Proof.
  destruct (update 5 1 (existT MOrder sample_order) sample_db) as [d'|e] eqn:E;
    [|vm_compute in E; discriminate].
  exists d'. split; [reflexivity|].
  exact (update_preserves_wf 5 1 _ sample_db d' sample_db_wf E).
Defined.

Lemma order_identified_by_external_id_witness : (MOrder, 1%Z) = (MOrder, 1%Z).
Proof.
  apply (order_identified_by_external_id sample_db _ _
           (Order.pre_save true 1 sample_order) (Order.pre_save true 1 sample_order) sample_db_wf);
    [vm_compute; reflexivity | vm_compute; reflexivity | reflexivity | reflexivity].
Defined.

Lemma storage_unit_code_identifies_witness : (MStorageUnit, 1%Z) = (MStorageUnit, 1%Z).
Proof.
  apply (storage_unit_code_identifies sample_db _ _
           (StorageUnit.pre_save true 1 (StorageUnit.create 1 "Shelf A" "shelf" "A-01" None))
           (StorageUnit.pre_save true 1 (StorageUnit.create 1 "Shelf A" "shelf" "A-01" None))
           sample_db_wf);
    [vm_compute; reflexivity | vm_compute; reflexivity | reflexivity].
Defined.

Lemma order_timestamps_witness :
  exists id d1, insert 2 sample_order2 sample_db = Ok (id, d1) /\
  exists o1, rows d1 !! (MOrder, id) = Some (existT MOrder o1) /\
    Order.created_at o1 = 2%Z /\ Order.updated_at o1 = 2%Z /\
    exists d2 o2, update 7 id (existT MOrder o1) d1 = Ok d2 /\
      rows d2 !! (MOrder, id) = Some (existT MOrder o2) /\
      Order.created_at o2 = 2%Z /\ Order.updated_at o2 = 7%Z.
Proof.
  destruct (insert 2 sample_order2 sample_db) as [[id d1]|e] eqn:E;
    [|vm_compute in E; discriminate].
  exists id, d1. split; [reflexivity|].
  exact (order_timestamps 2 7 _ sample_db id d1 sample_db_wf E).
Defined.
