(* ===== verification/Queries.v ===== *)
(** * Queries: reverse accessors and [Meta.ordering]

    A query [Model.objects.filter(...)] (or a reverse accessor such as
    [order.shipment_links]) reads the rows of one table that satisfy a
    test, in the order the model's [Meta.ordering] gives, or in the
    database's order when it gives none ([order.shipment_links] is read
    in [Constraints.v]).  [query] is that read over the
    store of [Database.v]; the database's order is modelled by the key
    order of [map_to_list], and a [Meta.ordering] by a stable merge sort
    on the declared field: the database leaves rows with equal values in
    an order of its own, which the theorems do not depend on.  Following
    a foreign key ([self.product]) is [related], and [str()] of a stored
    instance is [row_str]. *)

From S2P Require Import Prelude Django Companies Users Api Products Warehouses Orders Supplies Shipments Services Reports Database.
From Stdlib Require Import Eqdep_dec.
From stdpp Require Import sorting.

(** The instance a row holds, when it is a row of the model [m]. *)
Definition as_model (m : model) (r : row) : option (model_type m) :=
  match r with
  | existT m' x =>
      match decide (m' = m) with
      | left H => Some (eq_rect m' model_type x m H)
      | right _ => None
      end
  end.

Lemma as_model_Some m r x : as_model m r = Some x <-> r = existT m x.
Proof.
  destruct r as [m' y]. simpl. case_decide as H.
  - subst m'. simpl. split.
    + by intros [= ->].
    + intros Heq. apply inj_pair2_eq_dec in Heq; [by subst | exact model_eq_dec].
  - split; [discriminate|]. intros Heq. apply (f_equal (@projT1 _ _)) in Heq. done.
Qed.

(** [m.objects.filter(p)]: the instances of the table [m] that pass [p]. *)
Definition query (m : model) (p : model_type m -> bool) (d : db) : list (model_type m) :=
  omap (fun kr : key * row =>
          if decide (kr.1.1 = m) then
            match as_model m kr.2 with
            | Some x => if p x then Some x else None
            | None => None
            end
          else None)
       (map_to_list (rows d)).

Lemma elem_of_query m p d x :
  x ∈ query m p d <-> exists i, rows d !! (m, i) = Some (existT m x) /\ p x = true.
Proof.
  unfold query. rewrite list_elem_of_omap. split.
  - intros ([[m' i] r] & Hin & Hs). apply elem_of_map_to_list in Hin. simpl in Hs.
    case_decide; [subst m'|discriminate].
    destruct (as_model m r) as [y|] eqn:Hy; [|discriminate].
    destruct (p y) eqn:Hp; [|discriminate]. injection Hs as <-.
    apply as_model_Some in Hy as ->. eauto.
  - intros (i & Hr & Hp). exists ((m, i), existT m x). split; [by apply elem_of_map_to_list|].
    cbn [fst snd]. rewrite decide_True by done.
    assert (Hx : as_model m (existT m x) = Some x) by by apply as_model_Some.
    by rewrite Hx, Hp.
Qed.

(** ** Related objects and [__str__] *)

(** [self.<fk>]: the forward descriptor of a foreign key fetches the row
    of the target model with the stored id, and raises
    [RelatedObjectDoesNotExist] (a [DoesNotExist]) when there is none. *)
Definition related (m : model) (d : db) (id : Z) : res (model_type m) db_error :=
  match rows d !! (m, id) ≫= as_model m with
  | Some x => Ok x
  | None => Err (DoesNotExist (m, id))
  end.

(** [str(instance)] of the row stored at [k]: each model's [__str__],
    fetching the related objects its f-string reads, from left to right. *)
Definition row_str (d : db) (k : key) (r : row) : res string db_error :=
  match r with
  | existT m x =>
      match m return model_type m -> res string db_error with
      | MCompany => fun c => Ok (Company.str c)
      | MUser => fun u => Ok (User.str u)
      | MMarketplace => fun mp => Ok (Marketplace.str mp)
      | MProduct => fun p => Ok (Product.str p)
      | MProductImage => fun i =>
          let! p := related MProduct d (ProductImage.product i) in
          Ok (ProductImage.str (Product.name p) i)
      | MProductMarketplace => fun l =>
          let! p := related MProduct d (ProductMarketplace.product l) in
          let! mp := related MMarketplace d (ProductMarketplace.marketplace l) in
          Ok (ProductMarketplace.str (Product.name p) (Marketplace.name mp) l)
      | MWarehouse => fun w => Ok (Warehouse.str w)
      | MStorageUnit => fun u => Ok (StorageUnit.str u)
      | MOrder => fun o => Ok (Order.str o)
      | MOrderItem => fun i =>
          let! p := related MProduct d (OrderItem.product i) in
          let! o := related MOrder d (OrderItem.order i) in
          Ok (OrderItem.str (Product.name p) (Order.external_id o) i)
      | MSupply => fun s => Ok (Supply.str k.2 s)
      | MSupplyItem => fun i =>
          let! p := related MProduct d (SupplyItem.product i) in
          let! _ := related MSupply d (SupplyItem.supply i) in
          Ok (SupplyItem.str (Product.name p) i)
      | MSupplyDocument => fun doc =>
          let! _ := related MSupply d (SupplyDocument.supply doc) in
          Ok (SupplyDocument.str doc)
      | MShipment => fun s => Ok (Shipment.str k.2 s)
      | MShipmentOrder => fun l =>
          let! o := related MOrder d (ShipmentOrder.order l) in
          let! _ := related MShipment d (ShipmentOrder.shipment l) in
          Ok (ShipmentOrder.str (Order.external_id o) l)
      | MShipmentDocument => fun doc =>
          let! _ := related MShipment d (ShipmentDocument.shipment doc) in
          Ok (ShipmentDocument.str doc)
      | MService => fun s => Ok (Service.str s)
      | MServiceRequest => fun r =>
          let! s := related MService d (ServiceRequest.service r) in
          Ok (ServiceRequest.str (Service.name s) k.2 r)
      | MServiceRequestItem => fun i =>
          let! p := related MProduct d (ServiceRequestItem.product i) in
          let! _ := related MServiceRequest d (ServiceRequestItem.service_request i) in
          Ok (ServiceRequestItem.str (Product.name p) i)
      | MReport => fun r => Ok (Report.str r)
      | MInventory => fun inv => Ok (Inventory.str inv)
      | MInventoryItem => fun i =>
          let! p := related MProduct d (InventoryItem.product i) in
          let! inv := related MInventory d (InventoryItem.inventory i) in
          Ok (InventoryItem.str (Product.name p) (Inventory.name inv) i)
      end x
  end.

(** ** [product.images], ordered by [Meta.ordering = ['order']] *)

Definition image_le (a b : ProductImage.t) : Prop :=
  (ProductImage.order a <= ProductImage.order b)%Z.

#[global] Instance image_le_dec : RelDecision image_le.
Proof. intros a b. unfold image_le. apply _. Defined.

#[global] Instance image_le_total : Total image_le.
Proof. intros a b. unfold image_le. lia. Qed.

(** [product.images.all()]: the images whose [product] is [p], sorted by
    their [order] field. *)
Definition product_images (d : db) (p : Z) : list ProductImage.t :=
  merge_sort image_le
    (query MProductImage (fun i => bool_decide (ProductImage.product i = p)) d).

Lemma related_Ok d m id x :
  rows d !! (m, id) = Some (existT m x) -> related m d id = Ok x.
Proof.
  intros H. unfold related. rewrite H.
  assert (Hx : as_model m (existT m x) = Some x) by by apply as_model_Some.
  cbn [mbind option_bind]. by rewrite Hx.
Qed.

(** In a well-formed database, following a non-NULL foreign key of a
    stored row never raises [DoesNotExist]. *)
Lemma related_of_fk d k r m v :
  wf d -> rows d !! k = Some r ->
  (exists n od, In (mk_fk n m od (Some v)) (row_fks r)) ->
  exists y, related m d v = Ok y.
Proof.
  intros Hwf Hr (n & od & Hin).
  destruct (fk_target_typed d k r (mk_fk n m od (Some v)) v Hwf Hr) as ([m' y] & Hr' & Hm);
    [by apply list_elem_of_In | done |].
  simpl in Hm, Hr'. subst m'. exists y. by apply related_Ok.
Qed.

(** Fetch every related object the goal reads, from the foreign keys of
    the row. *)
Ltac fetch_related Hfk :=
  repeat match goal with
  | |- context [related ?m ?d ?v] =>
      let y := fresh "y" in let E := fresh "E" in
      destruct (Hfk m v ltac:(do 2 eexists; simpl; eauto 10)) as [y E];
      rewrite E; simpl
  end.

(** C21: [str()] of a stored instance never raises: in a well-formed
    database every related object an [__str__] reads ([self.product],
    [self.order], [self.shipment], ...) exists, so every model's
    [__str__] returns a string. *)
Theorem row_str_total d k r :
  wf d -> rows d !! k = Some r -> exists s, row_str d k r = Ok s.
Proof.
  intros Hwf Hr.
  pose proof (fun m v => related_of_fk d k r m v Hwf Hr) as Hfk.
  destruct r as [m x]. destruct m; simpl in *; fetch_related Hfk; eauto.
Qed.

(** ** Witnesses *)

Lemma row_str_total_witness :
  exists s, row_str sample_db (MOrderItem, 1%Z)
              (existT MOrderItem (OrderItem.pre_save true 1 (OrderItem.create 1 1 2 sample_price))) = Ok s.
Proof.
  apply (row_str_total sample_db (MOrderItem, 1%Z) _ sample_db_wf). vm_compute. reflexivity.
Defined.
