(* ===== verification/Cascades.v ===== *)
(** * Deleting a row: the Collector and what it does to this schema

    [delete] is [Model.delete()]: Django's [Collector] gathers the rows
    that reach the deleted one through [CASCADE] keys, to a fixpoint
    ([collect], with fuel one more than the number of rows), NULLs the
    [SET_NULL] keys that point into that set and deletes it.  The
    inductive relation [cascades] is its specification, and
    [collected_iff_cascades] the refinement; [delete_preserves_wf] and
    [delete_removes_exactly] give the invariant and the behaviour.

    [cascade_models m] is the static closure of the schema's [CASCADE]
    declarations: the models whose rows can go when a row of [m] is
    deleted; the proofs about warehouses use it to rule out a cascade
    into orders.  The last theorems give the schema's
    concrete behaviour: deleting a warehouse never deletes an order (its
    [shipping_warehouse] key is [SET_NULL]), while deleting a product or
    a company deletes the order items and orders that name it. *)

From S2P Require Import Prelude Django Warehouses Orders Products Database.

(** ** The Collector *)

(** Whether a key of policy [od] points into the set [C]. *)
Definition refers_into (od : on_delete) (C : gset key) (f : fk) : bool :=
  match fk_val f with
  | Some v => bool_decide (fk_on_delete f = od /\ (fk_to f, v) ∈ C)
  | None => false
  end.

(** The rows that a [CASCADE] key makes follow a row of [C]. *)
Definition cascade_referrers (d : db) (C : gset key) : gset key :=
  dom (filter (fun kr : key * row => existsb (refers_into CASCADE C) (row_fks kr.2) = true)
              (rows d)).

(** [Collector.collect]: add the cascading referrers until none is new. *)
Fixpoint collect (fuel : nat) (d : db) (C : gset key) : gset key :=
  match fuel with
  | O => C
  | S n =>
      let C' := C ∪ cascade_referrers d C in
      if decide (C' ⊆ C) then C else collect n d C'
  end.

Definition collected (d : db) (k : key) : gset key :=
  collect (S (size (rows d))) d {[k]}.

(** [SET_NULL]: NULL every such key of the row that points into [C]. *)
Definition null_refs (C : gset key) (r : row) : row :=
  foldr row_set_null r
    (map fk_name (filter (fun f => refers_into SET_NULL C f = true) (row_fks r))).

(** [Model.delete()]: delete the collected rows, after the field updates of
    the [SET_NULL] keys of the rows that stay. *)
Definition delete (k : key) (d : db) : db :=
  let C := collected d k in
  mk_db (null_refs C <$> filter (fun kr : key * row => kr.1 ∉ C) (rows d)) (seqs d).

(** ** The Collector against its specification

    [cascades d root k]: the row [k] must go when [root] is deleted, for
    it is [root] or reaches a row that must go through a [CASCADE] key.
    This is what Django's documentation promises of [CASCADE]; [collect]
    is the loop that computes it. *)
Inductive cascades (d : db) (root : key) : key -> Prop :=
| cascades_root : cascades d root root
| cascades_step k k' r f v :
    cascades d root k -> rows d !! k' = Some r -> In f (row_fks r) ->
    fk_on_delete f = CASCADE -> fk_val f = Some v -> (fk_to f, v) = k ->
    cascades d root k'.

Lemma elem_of_cascade_referrers d C k' :
  k' ∈ cascade_referrers d C <->
  exists r f v, rows d !! k' = Some r /\ In f (row_fks r) /\
    fk_on_delete f = CASCADE /\ fk_val f = Some v /\ (fk_to f, v) ∈ C.
Proof.
  unfold cascade_referrers. rewrite elem_of_dom.
  unfold is_Some. setoid_rewrite map_lookup_filter_Some. simpl.
  setoid_rewrite existsb_exists. unfold refers_into. split.
  - intros (r & Hr & f & Hf & Hb). destruct (fk_val f) as [v|] eqn:Hv; [|done].
    apply bool_decide_eq_true in Hb as [? ?]. eauto 10.
  - intros (r & f & v & Hr & Hf & Hc & Hv & Hin). exists r. split; [done|].
    exists f. split; [done|]. rewrite Hv. by apply bool_decide_eq_true.
Qed.

Lemma collect_grows n d C : C ⊆ collect n d C.
Proof.
  revert C. induction n as [|n IH]; intros C; simpl; [done|].
  case_decide; [done|]. etransitivity; [|apply IH]. set_solver.
Qed.

Lemma collect_sound n d root C :
  (forall x, x ∈ C -> cascades d root x) ->
  forall x, x ∈ collect n d C -> cascades d root x.
Proof.
  revert C. induction n as [|n IH]; intros C HC; simpl; [done|].
  case_decide; [done|]. apply IH. intros x Hx.
  apply elem_of_union in Hx as [Hx|Hx]; [by apply HC|].
  apply elem_of_cascade_referrers in Hx as (r & f & v & Hr & Hf & Hc & Hv & Hin).
  eapply cascades_step; eauto.
Qed.

Lemma cascade_referrers_dom d C : cascade_referrers d C ⊆ dom (rows d).
Proof.
  intros x Hx. apply elem_of_cascade_referrers in Hx as (r & _ & _ & Hr & _).
  apply elem_of_dom. eauto.
Qed.

(** Fuel adequacy: with more fuel than keys left to add, the loop stops
    at a set closed under cascading referrers. *)
Lemma collect_closed n d C U :
  C ⊆ U -> dom (rows d) ⊆ U -> size U < size C + n ->
  cascade_referrers d (collect n d C) ⊆ collect n d C.
Proof.
  revert C. induction n as [|n IH]; intros C HCU HU Hsz; simpl.
  - pose proof (subseteq_size _ _ HCU). lia.
  - case_decide as Hsub; [set_solver|].
    apply IH.
    + pose proof (cascade_referrers_dom d C). set_solver.
    + done.
    + assert (Hlt : size C < size (C ∪ cascade_referrers d C)).
      { apply subset_size. set_solver. }
      lia.
Qed.

(** With more rounds than rows, the loop started from one key stops at a
    set closed under cascading referrers. *)
Lemma collect_fuel_closed n d k :
  size (rows d) < n ->
  cascade_referrers d (collect n d {[k]}) ⊆ collect n d {[k]}.
Proof.
  intros Hn. apply (collect_closed _ _ _ ({[k]} ∪ dom (rows d))); [set_solver|set_solver|].
  pose proof (size_union_alt ({[k]} : gset key) (dom (rows d))) as Hu.
  pose proof (subseteq_size (dom (rows d) ∖ {[k]}) (dom (rows d)) ltac:(set_solver)).
  rewrite size_dom in *. rewrite size_singleton in *. lia.
Qed.

Lemma collected_closed d k : cascade_referrers d (collected d k) ⊆ collected d k.
Proof. apply collect_fuel_closed. lia. Qed.

(** A set that holds the root and is closed under cascading referrers
    holds every row that must go. *)
Lemma cascades_in_closed d k S x :
  k ∈ S -> cascade_referrers d S ⊆ S -> cascades d k x -> x ∈ S.
Proof.
  intros Hk Hcl. induction 1 as [|k0 k' r f v _ IH Hr Hf Hc Hv Heq]; [done|].
  apply Hcl, elem_of_cascade_referrers. subst k0. eauto 10.
Qed.

(** With enough fuel, [collect] computes the cascade relation. *)
Lemma collect_iff_cascades n d k x :
  size (rows d) < n -> x ∈ collect n d {[k]} <-> cascades d k x.
Proof.
  intros Hn. split.
  - apply collect_sound. intros y Hy. apply elem_of_singleton in Hy as ->. constructor.
  - apply cascades_in_closed; [apply collect_grows; set_solver | by apply collect_fuel_closed].
Qed.

(** C3: Refinement of the Collector: the set [collect] computes, with the fuel
    [delete] gives it, is exactly the set of rows that must go by the
    [CASCADE] rule; the loop always reaches its fixpoint in time. *)
Theorem collected_iff_cascades d k x : x ∈ collected d k <-> cascades d k x.
Proof. apply collect_iff_cascades. lia. Qed.

(** ** What [delete] leaves *)

Lemma null_refs_projT1 C r : projT1 (null_refs C r) = projT1 r.
Proof. unfold null_refs. induction (map fk_name _) as [|n ns IH]; simpl; auto. Qed.

Lemma foldr_set_null_fks r ns :
  row_fks (foldr row_set_null r ns) = map (fun f => foldr null_fk f ns) (row_fks r).
Proof.
  induction ns as [|n ns IH]; simpl.
  - symmetry. apply map_id.
  - rewrite row_fks_set_null, IH, map_map. reflexivity.
Qed.

Lemma null_refs_uniques C r : row_uniques (null_refs C r) = row_uniques r.
Proof.
  unfold null_refs. induction (map fk_name _) as [|n ns IH]; simpl; [done|].
  by rewrite row_uniques_set_null.
Qed.

Lemma null_fk_sig_foldr f ns : fk_sig (foldr null_fk f ns) = fk_sig f.
Proof. induction ns as [|n ns IH]; simpl; [done|]. by rewrite null_fk_sig. Qed.

(** A key that stays non-NULL after the [SET_NULL] updates is a key of
    the row as it was, and not a [SET_NULL] key named in the updates. *)
Lemma foldr_null_fk_val f ns v :
  fk_val (foldr null_fk f ns) = Some v ->
  fk_val f = Some v /\ ~ (fk_on_delete f = SET_NULL /\ In (fk_name f) ns).
Proof.
  induction ns as [|n ns IH]; simpl; [naive_solver|].
  pose proof (null_fk_sig_foldr f ns) as Hsig.
  destruct (foldr null_fk f ns) as [gn gt go gv]. destruct f as [fn ft fo fv].
  unfold fk_sig in Hsig. simpl in *. injection Hsig as -> -> ->.
  unfold null_fk. simpl. destruct fo.
  - intros Hv. destruct (IH Hv) as [Hv' _]. split; [done|]. by intros [? _].
  - destruct (String.eqb fn n) eqn:Hn; [discriminate|].
    intros Hv. destruct (IH Hv) as [Hv' Hnot]. split; [done|].
    intros [_ [<-|Hin]]; [rewrite String.eqb_refl in Hn; discriminate | tauto].
Qed.

Lemma delete_lookup k d k' :
  rows (delete k d) !! k' =
  if decide (k' ∈ collected d k) then None
  else null_refs (collected d k) <$> rows d !! k'.
Proof.
  unfold delete. simpl. rewrite lookup_fmap.
  destruct (rows d !! k') as [r|] eqn:Hr; case_decide as Hin.
  - rewrite map_lookup_filter_None_2; [done|]. right. intros ? _. simpl. tauto.
  - rewrite (map_lookup_filter_Some_2 _ _ _ r); [done|done|]. simpl. done.
  - rewrite map_lookup_filter_None_2; [done|]. by left.
  - rewrite map_lookup_filter_None_2; [done|]. by left.
Qed.

Lemma delete_lookup_Some k d k' r' :
  rows (delete k d) !! k' = Some r' ->
  (k' ∉ collected d k) /\ (exists r, rows d !! k' = Some r /\ r' = null_refs (collected d k) r).
Proof.
  rewrite delete_lookup. case_decide; [discriminate|].
  intros Hr. apply fmap_Some in Hr as (r & Hr & ->). eauto.
Qed.

(** A key of a row that stays points outside the deleted set. *)
Lemma kept_fk_outside d k k' r f v :
  k' ∉ collected d k -> rows d !! k' = Some r ->
  In f (row_fks (null_refs (collected d k) r)) -> fk_val f = Some v ->
  exists f0, In f0 (row_fks r) /\ fk_val f0 = Some v /\ fk_to f0 = fk_to f /\
             (fk_to f, v) ∉ collected d k.
Proof.
  intros Hk' Hr Hf Hv. unfold null_refs in Hf. rewrite foldr_set_null_fks in Hf.
  apply in_map_iff in Hf as (f0 & <- & Hf0).
  destruct (foldr_null_fk_val _ _ _ Hv) as [Hv0 Hnot].
  pose proof (null_fk_sig_foldr f0
    (map fk_name (filter (fun f => refers_into SET_NULL (collected d k) f = true) (row_fks r))))
    as Hsig.
  unfold fk_sig in Hsig. injection Hsig as _ Hto _. rewrite Hto.
  exists f0. split; [done|]. split; [done|]. split; [done|]. intros Hin.
  destruct (fk_on_delete f0) eqn:Hod.
  - apply Hk', collected_closed, elem_of_cascade_referrers. eauto 10.
  - apply Hnot. split; [done|]. apply in_map.
    apply list_elem_of_In, list_elem_of_filter. split; [|by apply list_elem_of_In].
    unfold refers_into. rewrite Hv0. by apply bool_decide_eq_true.
Qed.

(** C4: Deleting any row keeps every constraint of the schema: after the
    cascade and the [SET_NULL] updates no foreign key names a deleted
    row, and keys and unique values stay as they were. *)
Theorem delete_preserves_wf k d : wf d -> wf (delete k d).
Proof.
  intros (Hk & Hf & Hu). split; [|split].
  - intros k' r' Hr'. apply delete_lookup_Some in Hr' as (_ & r & Hr & ->).
    rewrite null_refs_projT1. exact (Hk _ _ Hr).
  - intros k' r' f v Hr' Hfin Hv. apply delete_lookup_Some in Hr' as (Hk' & r & Hr & ->).
    apply list_elem_of_In in Hfin.
    destruct (kept_fk_outside _ _ _ _ _ _ Hk' Hr Hfin Hv) as (f0 & Hf0 & Hv0 & Hto & Hout).
    rewrite delete_lookup. case_decide; [done|].
    destruct (Hf _ _ _ _ Hr ltac:(by apply list_elem_of_In) Hv0) as [r0 H0].
    rewrite Hto in H0. apply fmap_is_Some. exists r0. exact H0.
  - intros k1 k2 r1 r2 u H1 H2 Hm Hu1 Hu2.
    apply delete_lookup_Some in H1 as (_ & r1' & H1 & ->).
    apply delete_lookup_Some in H2 as (_ & r2' & H2 & ->).
    rewrite null_refs_uniques in Hu1, Hu2. eauto.
Qed.

(** C5: What [delete] removes: a row is gone afterwards exactly when it was
    absent or must go by the [CASCADE] rule from the deleted row; every
    other row stays, with only its [SET_NULL] keys into the deleted set
    NULLed. *)
Theorem delete_removes_exactly k d k' :
  rows (delete k d) !! k' = None <-> rows d !! k' = None \/ cascades d k k'.
Proof.
  rewrite delete_lookup. unfold collected. rewrite <- (collect_iff_cascades (S (size (rows d)))) by lia.
  case_decide; [tauto|]. rewrite fmap_None. tauto.
Qed.

(** ** The static cascade graph *)

(** The models a row of [m] follows on deletion: the targets of its
    [CASCADE] keys, read off the declarations. *)
Definition cascade_parents (m : model) : list model :=
  map (fun s => s.1.2) (filter (fun s => s.2 = CASCADE) (@m_fk_shape _ (model_inst m))).

Definition cascade_grow (S : list model) : list model :=
  S ++ filter (fun m => bool_decide ((m ∉ S) /\ Exists (fun p => p ∈ S) (cascade_parents m)))
              all_models.

Fixpoint cascade_closure (fuel : nat) (S : list model) : list model :=
  match fuel with O => S | S n => cascade_closure n (cascade_grow S) end.

(** Every model is added at most once: the 22 models bound the fuel. *)
Definition cascade_models (m : model) : list model :=
  cascade_closure (length all_models) [m].

(** A set of models closed under "has a [CASCADE] key into". *)
Definition cascade_closed (S : list model) : bool :=
  forallb (fun m => bool_decide (Exists (fun p => p ∈ S) (cascade_parents m) -> m ∈ S))
          all_models.

Lemma all_models_complete m : In m all_models.
Proof. destruct m; simpl; tauto. Qed.

Lemma cascade_models_closed m : cascade_closed (cascade_models m) = true.
Proof. destruct m; vm_compute; reflexivity. Qed.

Lemma cascade_models_self m : m ∈ cascade_models m.
Proof. destruct m; vm_compute; repeat (first [left | right]). Qed.

Lemma cascade_closed_step S m p :
  cascade_closed S = true -> p ∈ S -> In p (cascade_parents m) -> m ∈ S.
Proof.
  intros Hc Hp Hpar. unfold cascade_closed in Hc. rewrite forallb_forall in Hc.
  specialize (Hc m (all_models_complete m)). apply bool_decide_eq_true in Hc.
  apply Hc, Exists_exists. exists p. split; [by apply list_elem_of_In | done].
Qed.

(** The model of a cascading row names, by a [CASCADE] key, the model of
    the row it follows. *)
Lemma cascade_parent_of_step d k k' r f v :
  keys_ok d -> rows d !! k' = Some r -> In f (row_fks r) ->
  fk_on_delete f = CASCADE -> fk_val f = Some v -> (fk_to f, v) = k ->
  In k.1 (cascade_parents k'.1).
Proof.
  intros Hk Hr Hf Hc _ <-. destruct (Hk _ _ Hr) as [<- _].
  unfold cascade_parents. rewrite <- row_fk_shape.
  apply in_map_iff. exists (fk_sig f). split; [reflexivity|].
  apply list_elem_of_In, list_elem_of_filter. split; [exact Hc|].
  apply list_elem_of_In, in_map, Hf.
Qed.

(** Rule induction on [cascades], stepping along [cascade_parents]. *)
Lemma cascades_model_bound d root k :
  keys_ok d -> cascades d root k -> k.1 ∈ cascade_models root.1.
Proof.
  intros Hk. induction 1 as [|k0 k' r f v _ IH Hr Hf Hc Hv Heq].
  - apply cascade_models_self.
  - eapply cascade_closed_step; [apply cascade_models_closed | exact IH |].
    eapply cascade_parent_of_step; eauto.
Qed.

(** A row other than the deleted one follows a row of a parent model
    that the deleted model reaches. *)
Lemma cascades_inv d root k :
  keys_ok d -> cascades d root k ->
  k = root \/ exists p, In p (cascade_parents k.1) /\ p ∈ cascade_models root.1.
Proof.
  intros Hk Hcas. inversion Hcas as [|k0 k' r f v Hc0 Hr Hf Hc Hv Heq]; [by left|].
  right. exists k0.1. split.
  - eapply cascade_parent_of_step; eauto.
  - exact (cascades_model_bound d root k0 Hk Hc0).
Qed.

(** ** Deleting a warehouse *)

Lemma warehouse_in_collected d w v :
  keys_ok d -> (MWarehouse, v) ∈ collected d (MWarehouse, w) <-> v = w.
Proof.
  intros Hk. unfold collected. rewrite collect_iff_cascades by lia. split; [|intros ->; constructor].
  intros Hc. destruct (cascades_inv _ _ _ Hk Hc) as [[=]|(p & Hp & Hin)]; [done|].
  simpl in Hp. destruct Hp as [<-|[]].
  apply (bool_decide_eq_true_2 _) in Hin. vm_compute in Hin. discriminate.
Qed.

Lemma order_not_collected_by_warehouse d w id :
  keys_ok d -> (MOrder, id) ∉ collected d (MWarehouse, w).
Proof.
  intros Hk Hin. apply collect_iff_cascades in Hin; [|lia].
  apply (cascades_model_bound _ _ _ Hk) in Hin.
  apply (bool_decide_eq_true_2 _) in Hin. vm_compute in Hin. discriminate.
Qed.

(** The [SET_NULL] update of an order: only [shipping_warehouse] can be NULLed. *)
Lemma order_null_refs C o :
  null_refs C (existT MOrder o) =
  existT MOrder (match Order.shipping_warehouse o with
                 | Some v => if bool_decide ((MWarehouse, v) ∈ C)
                             then Order.set_null "shipping_warehouse" o else o
                 | None => o end).
Proof.
  unfold null_refs. cbn [row_fks projT1 projT2 model_inst Order.model_inst m_foreign_keys].
  unfold Order.foreign_keys, refers_into. rewrite !filter_cons, filter_nil. simpl.
  destruct (Order.shipping_warehouse o) as [v|]; simpl; [|reflexivity].
  destruct (decide ((MWarehouse, v) ∈ C)) as [Hin|Hin].
  - rewrite (bool_decide_eq_true_2 ((MWarehouse, v) ∈ C)) by done.
    rewrite decide_True by (apply bool_decide_eq_true; auto). reflexivity.
  - rewrite (bool_decide_eq_false_2 ((MWarehouse, v) ∈ C)) by done.
    rewrite decide_False by (rewrite bool_decide_eq_true; naive_solver). reflexivity.
Qed.

(** C7: Deleting a warehouse never deletes an order: an order shipped from it
    stays, with its [shipping_warehouse] NULLed ([on_delete=SET_NULL]),
    and every other order stays unchanged. *)
Theorem warehouse_delete_keeps_orders d w id (o : Order.t) :
  wf d -> rows d !! (MOrder, id) = Some (existT MOrder o) ->
  rows (delete (MWarehouse, w) d) !! (MOrder, id) =
    Some (existT MOrder (if decide (Order.shipping_warehouse o = Some w)
                         then Order.set_null "shipping_warehouse" o else o)).
Proof.
  intros (Hk & _ & _) Ho. rewrite delete_lookup.
  rewrite decide_False by (by apply order_not_collected_by_warehouse).
  rewrite Ho. simpl. rewrite order_null_refs. f_equal.
  destruct (Order.shipping_warehouse o) as [v|] eqn:Hs.
  - case_bool_decide as Hin.
    + apply (warehouse_in_collected d w v Hk) in Hin as ->.
      by rewrite decide_True.
    + rewrite decide_False; [done|]. intros [= ->].
      apply Hin, (warehouse_in_collected d w w Hk). done.
  - by rewrite decide_False.
Qed.

(** ** Deletions that reach rows the spec keeps *)

(** A row with a [CASCADE] key into a collected row is collected. *)
Lemma collected_step d k k' r f v :
  (fk_to f, v) ∈ collected d k -> rows d !! k' = Some r -> In f (row_fks r) ->
  fk_on_delete f = CASCADE -> fk_val f = Some v -> k' ∈ collected d k.
Proof.
  intros Hin Hr Hf Hc Hv. apply collected_closed, elem_of_cascade_referrers. eauto 10.
Qed.

(** A row with a [CASCADE] key into the deleted row goes with it. *)
Lemma delete_removes_referrer d k' r f v :
  rows d !! k' = Some r -> In f (row_fks r) -> fk_on_delete f = CASCADE ->
  fk_val f = Some v -> rows (delete (fk_to f, v) d) !! k' = None.
Proof.
  intros Hr Hf Hc Hv. rewrite delete_lookup. case_decide as Hin; [done|]. exfalso. apply Hin.
  apply (collected_step d _ k' r f v); [unfold collected; apply collect_grows; set_solver | exact Hr | exact Hf | exact Hc | exact Hv].
Qed.

(** C8: Deleting a product deletes every order item that names it
    ([OrderItem.product] cascades), whatever the state of the order. *)
Theorem product_delete_removes_order_items d p i (it : OrderItem.t) :
  rows d !! (MOrderItem, i) = Some (existT MOrderItem it) -> OrderItem.product it = p ->
  rows (delete (MProduct, p) d) !! (MOrderItem, i) = None.
Proof.
  intros Hi <-. apply (delete_removes_referrer d _ (existT MOrderItem it)
    (mk_fk "product" MProduct CASCADE (Some (OrderItem.product it)))); [done| |done|done].
  simpl. tauto.
Qed.

(** C9: Deleting a company deletes every one of its orders ([Order.company]
    cascades): orders are not kept for audit once their company goes. *)
Theorem company_delete_removes_orders d c id (o : Order.t) :
  rows d !! (MOrder, id) = Some (existT MOrder o) -> Order.company o = c ->
  rows (delete (MCompany, c) d) !! (MOrder, id) = None.
Proof.
  intros Ho <-. apply (delete_removes_referrer d _ (existT MOrder o)
    (mk_fk "company" MCompany CASCADE (Some (Order.company o)))); [done| |done|done].
  simpl. tauto.
Qed.

(** ** Witnesses *)

Definition sample_item : OrderItem.t := OrderItem.pre_save true 1 (OrderItem.create 1 1 2 sample_price).
Definition sample_stored_order : Order.t := Order.pre_save true 1 sample_order.

Lemma warehouse_delete_keeps_orders_witness :
  rows (delete (MWarehouse, 1%Z) sample_db) !! (MOrder, 1%Z) =
    Some (existT MOrder (Order.set_null "shipping_warehouse" sample_stored_order)).
Proof.
  exact (warehouse_delete_keeps_orders sample_db 1 1 sample_stored_order sample_db_wf
           ltac:(vm_compute; reflexivity)).
Defined.

Lemma product_delete_removes_order_items_witness :
  rows (delete (MProduct, 1%Z) sample_db) !! (MOrderItem, 1%Z) = None.
Proof.
  exact (product_delete_removes_order_items sample_db 1 1 sample_item
           ltac:(vm_compute; reflexivity) eq_refl).
Defined.

Lemma company_delete_removes_orders_witness :
  rows (delete (MCompany, 1%Z) sample_db) !! (MOrder, 1%Z) = None.
Proof.
  exact (company_delete_removes_orders sample_db 1 1 sample_stored_order
           ltac:(vm_compute; reflexivity) eq_refl).
Defined.

Lemma delete_preserves_wf_witness : wf (delete (MWarehouse, 1%Z) sample_db).
Proof. exact (delete_preserves_wf (MWarehouse, 1%Z) sample_db sample_db_wf). Defined.

