(* ===== verification/Constraints.v ===== *)
(** * What the schema's constraints admit

    The database of [Database.v] enforces exactly the foreign keys and
    unique constraints the models declare.  This file shows, for the
    invariants the design asks of shipments and storage units, that the
    declarations do not carry them: an order can be linked to a second
    shipment ([unique_together] is on the pair, not on the order), and a
    storage unit can be saved as its own parent (nothing keeps
    [parent_unit] acyclic).  It also shows what deleting a warehouse does
    to the shipments of the orders shipped from it. *)

From S2P Require Import Prelude Django Warehouses Shipments Database Queries Cascades.
From Stdlib Require Import Eqdep_dec.

(** ** [order.shipment_links] *)

(** [order.shipment_links.values_list('shipment', flat=True)]: the
    shipments of the [ShipmentOrder] rows whose [order] is [o], read
    through the reverse accessor the [related_name] of
    [ShipmentOrder.order] declares. *)
Definition shipment_links (d : db) (o : Z) : list Z :=
  ShipmentOrder.shipment <$> query MShipmentOrder (fun so => bool_decide (ShipmentOrder.order so = o)) d.

Lemma elem_of_shipment_links d o s :
  s ∈ shipment_links d o <->
  exists i so, rows d !! (MShipmentOrder, i) = Some (existT MShipmentOrder so) /\
               ShipmentOrder.shipment so = s /\ ShipmentOrder.order so = o.
Proof.
  unfold shipment_links. rewrite list_elem_of_fmap. split.
  - intros (so & -> & Hq). apply (elem_of_query MShipmentOrder) in Hq as (i & Hr & Ho).
    apply bool_decide_eq_true in Ho. eauto.
  - intros (i & so & Hr & <- & Ho). exists so. split; [done|].
    apply (elem_of_query MShipmentOrder). exists i. split; [done|]. by apply bool_decide_eq_true.
Qed.

(** A stored row under a [ShipmentOrder] key is a [ShipmentOrder] whose
    unique values are those of [ShipmentOrder.unique_keys]. *)
Lemma shipment_order_row_of d k r u :
  keys_ok d -> rows d !! k = Some r -> k.1 = MShipmentOrder -> u ∈ row_uniques r ->
  exists so, r = existT MShipmentOrder so /\ u ∈ ShipmentOrder.unique_keys so.
Proof.
  intros Hk Hr Hm Hu. destruct (Hk _ _ Hr) as [Hm' _].
  destruct k as [km ki]. simpl in Hm, Hm'. subst km.
  destruct r as [m a]. simpl in Hm'. subst m. eauto.
Qed.

(** C10: An order already in one shipment can be put in a second: the
    insert of the [ShipmentOrder] link to a shipment [s2] it is not in
    succeeds, and afterwards [order.shipment_links] names both shipments.
    The design requires each order in at most one active shipment; the
    schema's [unique_together = ('shipment', 'order')] only refuses the
    same pair twice. *)
Theorem order_links_to_second_shipment now d o s1 s2 :
  wf d -> s1 ∈ shipment_links d o -> is_Some (rows d !! (MShipment, s2)) ->
  s2 ∉ shipment_links d o ->
  exists id d',
    insert now (existT MShipmentOrder (ShipmentOrder.create s2 o)) d = Ok (id, d') /\
    s1 ∈ shipment_links d' o /\ s2 ∈ shipment_links d' o.
Proof.
  intros Hwf Hs1 Hs2 Hfree. pose proof Hwf as (Hk & Hf & Hu).
  pose proof Hs1 as (k1 & so & Hso & Hsh & Ho)%elem_of_shipment_links.
  set (r := existT MShipmentOrder (ShipmentOrder.create s2 o) : row).
  assert (Hc : check_row d (MShipmentOrder, next_id MShipmentOrder d) (row_pre_save true now r) = Ok tt).
  { apply check_row_Ok. rewrite row_fks_pre_save, row_uniques_pre_save. split.
    - intros f Hin. simpl in Hin. apply fk_ok_true.
      destruct Hin as [<-|[<-|[]]]; simpl; intros v [= <-]; [done|].
      eapply (Hf _ _ (mk_fk "order" MOrder CASCADE (Some (ShipmentOrder.order so))));
        [exact Hso | simpl; set_solver | by rewrite Ho].
    - intros u Hin. simpl in Hin. destruct Hin as [<-|[]].
      apply uq_taken_false. intros k' r' Hr' _ Hm Hu'.
      destruct (shipment_order_row_of _ _ _ _ Hk Hr' Hm Hu') as (so' & -> & Hin').
      apply list_elem_of_singleton in Hin'. injection Hin' as Hs Ho'.
      destruct k' as [m' i']. simpl in Hm. subst m'.
      apply Hfree, elem_of_shipment_links. eauto. }
  assert (Hins : insert now r d = Ok (next_id MShipmentOrder d,
            mk_db (<[(MShipmentOrder, next_id MShipmentOrder d) := row_pre_save true now r]> (rows d))
                  (<[MShipmentOrder := (next_id MShipmentOrder d + 1)%Z]> (seqs d)))).
  { apply insert_Ok. auto. }
  destruct (insert_Ok_effect _ _ _ _ _ Hk Hins) as (Hfresh & Hnew & Hold & _).
  unfold r in *. cbn [projT1] in Hfresh, Hnew, Hold.
  eexists _, _. split; [exact Hins|]. split; apply elem_of_shipment_links.
  - exists k1, so. split; [|done]. rewrite Hold; [done|]. intros [= ->]. congruence.
  - eexists _, _. split; [exact Hnew|]. done.
Qed.

(** A [ShipmentOrder] has no [SET_NULL] key: the Collector leaves a link
    it keeps as it was. *)
Lemma null_refs_shipment_order C so :
  null_refs C (existT MShipmentOrder so) = existT MShipmentOrder so.
Proof. unfold null_refs. induction (map fk_name _) as [|n ns IH]; simpl; [done|]. by rewrite IH. Qed.

(** C20: Deleting a warehouse takes the orders shipped from it out of their
    shipments: every shipment of the warehouse goes ([Shipment.warehouse]
    cascades) and with it every [ShipmentOrder] link to it
    ([ShipmentOrder.shipment] cascades), so no order is linked to it
    afterwards, while the orders themselves stay. *)
Theorem warehouse_delete_unlinks_shipments d w s (sh : Shipment.t) o :
  rows d !! (MShipment, s) = Some (existT MShipment sh) -> Shipment.warehouse sh = w ->
  s ∉ shipment_links (delete (MWarehouse, w) d) o.
Proof.
  intros Hs Hw (k & so & Hk & Hsh & _)%elem_of_shipment_links. subst s w.
  apply delete_lookup_Some in Hk as (Hnot & [m x] & Hr & Heq).
  pose proof (f_equal (@projT1 _ _) Heq) as Hm. rewrite null_refs_projT1 in Hm. simpl in Hm. subst m.
  rewrite null_refs_shipment_order in Heq.
  apply inj_pair2_eq_dec in Heq; [subst x | exact model_eq_dec].
  apply Hnot. apply (collected_step d _ (MShipmentOrder, k) (existT MShipmentOrder so)
    (mk_fk "shipment" MShipment CASCADE (Some (ShipmentOrder.shipment so))) (ShipmentOrder.shipment so));
    [|exact Hr | simpl; auto | done | done].
  apply (collected_step d _ (MShipment, ShipmentOrder.shipment so) (existT MShipment sh)
    (mk_fk "warehouse" MWarehouse CASCADE (Some (Shipment.warehouse sh))) (Shipment.warehouse sh));
    [unfold collected; apply collect_grows; set_solver | exact Hs | simpl; auto | done | done].
Qed.

(** [unit.parent_unit = p], the assignment before [save()]. *)
Definition set_parent_unit (p : option Z) (u : StorageUnit.t) : StorageUnit.t :=
  StorageUnit.mk (StorageUnit.warehouse u) (StorageUnit.name u) (StorageUnit.type u)
    (StorageUnit.code u) (StorageUnit.width u) (StorageUnit.height u) (StorageUnit.depth u)
    (StorageUnit.max_weight u) (StorageUnit.max_items u) p
    (StorageUnit.created_at u) (StorageUnit.updated_at u).

(** C11: A stored storage unit can be saved as its own parent: the update
    passes every constraint and the database stays well formed.  The
    design requires the unit hierarchy to be an acyclic tree; the
    self-referencing [parent_unit] key does not enforce it. *)
Theorem storage_unit_own_parent now d id (su : StorageUnit.t) :
  wf d -> rows d !! (MStorageUnit, id) = Some (existT MStorageUnit su) ->
  exists d',
    update now id (existT MStorageUnit (set_parent_unit (Some id) su)) d = Ok d' /\
    wf d' /\
    rows d' !! (MStorageUnit, id) =
      Some (existT MStorageUnit (StorageUnit.pre_save false now (set_parent_unit (Some id) su))).
Proof.
  intros Hwf Hsu. pose proof Hwf as (Hk & Hf & Hu).
  set (r := existT MStorageUnit (set_parent_unit (Some id) su) : row).
  assert (Hc : check_row d (MStorageUnit, id) (row_pre_save false now r) = Ok tt).
  { apply check_row_Ok. rewrite row_fks_pre_save, row_uniques_pre_save. split.
    - intros f Hin. simpl in Hin. apply fk_ok_true.
      destruct Hin as [<-|[<-|[]]]; simpl; intros v [= <-]; [|eauto].
      eapply (Hf _ _ (mk_fk "warehouse" MWarehouse CASCADE (Some (StorageUnit.warehouse su))));
        [exact Hsu | simpl; set_solver | done].
    - intros u Hin. simpl in Hin. destruct Hin as [<-|[]].
      apply uq_taken_false. intros k' r' Hr' Hne Hm Hu'.
      apply Hne, (Hu _ _ _ _ _ Hr' Hsu Hm Hu'). simpl. set_solver. }
  assert (Hup : update now id r d =
                Ok (mk_db (<[(MStorageUnit, id) := row_pre_save false now r]> (rows d)) (seqs d))).
  { unfold update. simpl projT1. rewrite Hsu. simpl. by rewrite Hc. }
  eexists. split; [exact Hup|]. split; [by eapply store_over_wf|].
  simpl. apply lookup_insert_eq.
Qed.

(** ** Witnesses *)

Definition sample_unit : StorageUnit.t :=
  StorageUnit.pre_save true 1 (StorageUnit.create 1 "Shelf A" "shelf" "A-01" None).

Lemma order_links_to_second_shipment_witness :
  exists id d',
    insert 5 (existT MShipmentOrder (ShipmentOrder.create 2 1)) sample_db = Ok (id, d') /\
    1%Z ∈ shipment_links d' 1 /\ 2%Z ∈ shipment_links d' 1.
Proof.
  apply (order_links_to_second_shipment 5 sample_db 1 1 2 sample_db_wf).
  - apply (bool_decide_unpack _). vm_compute. exact I.
  - eexists; vm_compute; reflexivity.
  - apply (bool_decide_unpack _). vm_compute. exact I.
Defined.

Lemma storage_unit_own_parent_witness :
  exists d',
    update 5 1 (existT MStorageUnit (set_parent_unit (Some 1%Z) sample_unit)) sample_db = Ok d' /\
    wf d' /\
    rows d' !! (MStorageUnit, 1%Z) =
      Some (existT MStorageUnit (StorageUnit.pre_save false 5 (set_parent_unit (Some 1%Z) sample_unit))).
Proof.
  exact (storage_unit_own_parent 5 sample_db 1 sample_unit sample_db_wf
           ltac:(vm_compute; reflexivity)).
Defined.

Lemma warehouse_delete_unlinks_shipments_witness :
  1%Z ∉ shipment_links (delete (MWarehouse, 1%Z) sample_db) 1.
Proof.
  apply (warehouse_delete_unlinks_shipments sample_db 1 1
           (Shipment.pre_save true 1 (Shipment.create 1 1 20260101)));
    [vm_compute; reflexivity | reflexivity].
Defined.
