(* ===== verification/Validation.v ===== *)
(** * What [full_clean] accepts

    [Model.full_clean()] runs [clean_fields()], the model's [clean()]
    (no model of the repository overrides it, so it does nothing) and
    [validate_unique()].  [clean_fields()] runs each field's validators
    (the per-model [clean_fields] of the app files) and, for a foreign
    key, [ForeignKey.validate], which raises when a non-NULL key names no
    row of its target table ([validate_fks]).  [validate_unique()] looks
    every unique constraint up among the other rows of the table
    ([exclude(pk=self.pk)]).  [save()] does not call [full_clean]: a view
    or form must.  This file compares what it accepts with the design's
    expectations: an order's status is one of its choices and its price
    is bounded by its [DecimalField(max_digits=10, decimal_places=2)];
    the quantities of items are bounded by the 32-bit column only, so a
    received quantity above the planned one, a zero or negative order
    quantity and a stored [has_discrepancy] that contradicts the counts
    all pass. *)

From S2P Require Import Prelude Django Orders Supplies Reports Database.

(** [ForeignKey.validate] for every key of the instance: a non-NULL key
    names a row of the target table. *)
Definition validate_fks (d : db) (r : row) : bool :=
  forallb (fk_ok d) (row_fks r).

(** [Model.validate_unique()]: no other row of the model holds the value
    of one of the instance's unique constraints. *)
Definition validate_unique (d : db) (k : key) (r : row) : bool :=
  forallb (fun u => negb (uq_taken d k u)) (row_uniques r).

(** [Model.full_clean()] of the instance [r] whose key is [k]. *)
Definition full_clean (d : db) (k : key) (r : row) : bool :=
  row_clean r && validate_fks d r && validate_unique d k r.

Lemma full_clean_fields d k r : full_clean d k r = true -> row_clean r = true.
Proof. unfold full_clean. rewrite !andb_true_iff. tauto. Qed.

(** For a model without unique constraints [full_clean] is the field
    validators and the foreign key checks. *)
Lemma full_clean_no_uniques d k r :
  row_uniques r = [] -> full_clean d k r = row_clean r && validate_fks d r.
Proof. unfold full_clean, validate_unique. intros ->. apply andb_true_r. Qed.

(** The check of a non-NULL key is a lookup of its target row. *)
Lemma fk_ok_Some d n m od v :
  fk_ok d (mk_fk n m od (Some v)) = true <-> is_Some (rows d !! (m, v)).
Proof. unfold fk_ok. simpl. apply bool_decide_eq_true. Qed.

Ltac clean_simpl :=
  unfold row_clean, validate_fks; simpl;
  rewrite ?andb_true_r, ?andb_true_iff, ?fk_ok_Some.

(** C13: An order that passes [full_clean] has a status among
    [ORDER_STATUSES]; the default of [Order.create] is one ([new]). *)
Theorem order_clean_status d k (o : Order.t) :
  full_clean d k (existT MOrder o) = true ->
  exists s, Order.status_of_value (Order.status o) = Some s.
Proof.
  intros H%full_clean_fields. unfold row_clean in H. simpl in H.
  unfold Order.clean_fields, choice_field in H. rewrite !andb_true_iff in H.
  apply (enum_of_value_choice Order.status_value Order.all_statuses Order.ORDER_STATUSES);
    [reflexivity | tauto].
Qed.

(** C14: The total price of an order that passes [full_clean] has at most two
    decimal places and an absolute value below [10^8]. *)
Theorem order_total_price_bound d k (o : Order.t) :
  full_clean d k (existT MOrder o) = true ->
  (-2 <= dec_exp (Order.total_price o))%Z /\
  (Z.of_N (dec_coeff (Order.total_price o)) * 10 ^ (dec_exp (Order.total_price o) + 2)
     < 10 ^ 10)%Z.
Proof.
  intros H%full_clean_fields. unfold row_clean in H. simpl in H.
  unfold Order.clean_fields in H. rewrite !andb_true_iff in H.
  apply (decimal_field_bound 10 2); [lia | tauto].
Qed.

(** C15: A supply item passes [full_clean] exactly when its supply and its
    product exist and its planned and received quantities fit the 32-bit
    column: nothing bounds the received quantity by the planned one or
    keeps either non-negative. *)
Theorem supply_item_clean_quantities d k (i : SupplyItem.t) :
  full_clean d k (existT MSupplyItem i) = true <->
  is_Some (rows d !! (MSupply, SupplyItem.supply i)) /\
  is_Some (rows d !! (MProduct, SupplyItem.product i)) /\
  (int_min <= SupplyItem.quantity i <= int_max)%Z /\
  (int_min <= SupplyItem.quantity_received i <= int_max)%Z.
Proof.
  rewrite full_clean_no_uniques by reflexivity. clean_simpl.
  unfold SupplyItem.clean_fields, int_field. rewrite !andb_true_iff, !Z.leb_le. tauto.
Qed.

(** C16: An order item whose order and product exist and whose price is
    valid passes [full_clean] with any quantity of the 32-bit range, zero
    and negative ones included, and with no other. *)
Theorem order_item_clean_quantity d k (i : OrderItem.t) :
  is_Some (rows d !! (MOrder, OrderItem.order i)) ->
  is_Some (rows d !! (MProduct, OrderItem.product i)) ->
  decimal_field 10 2 (OrderItem.price i) = true ->
  full_clean d k (existT MOrderItem i) = true <-> (int_min <= OrderItem.quantity i <= int_max)%Z.
Proof.
  intros Ho Hp Hd. rewrite full_clean_no_uniques by reflexivity. clean_simpl.
  unfold OrderItem.clean_fields, int_field. rewrite Hd, andb_true_r.
  rewrite andb_true_iff, !Z.leb_le. tauto.
Qed.

(** C17: [has_discrepancy] is stored, not computed: an inventory item of a
    stored inventory and product whose counted quantity differs from the
    expected one passes [full_clean] with [has_discrepancy = False]. *)
Theorem inventory_item_discrepancy_unchecked d k inv p e a :
  is_Some (rows d !! (MInventory, inv)) -> is_Some (rows d !! (MProduct, p)) ->
  int_field e = true -> int_field a = true -> e <> a ->
  full_clean d k (existT MInventoryItem (InventoryItem.mk inv p e (Some a) true false None 0 0)) = true.
Proof.
  intros Hi Hp He Ha _. rewrite full_clean_no_uniques by reflexivity.
  apply andb_true_iff. split.
  - unfold row_clean. simpl. unfold InventoryItem.clean_fields. simpl. by rewrite He, Ha.
  - unfold validate_fks. simpl. rewrite !andb_true_iff, !fk_ok_Some. done.
Qed.

(** ** Witnesses *)

Lemma order_clean_status_witness :
  exists s, Order.status_of_value (Order.status sample_order) = Some s.
Proof. apply (order_clean_status sample_db (MOrder, 1%Z)). vm_compute. reflexivity. Defined.

Lemma order_total_price_bound_witness :
  (-2 <= dec_exp (Order.total_price sample_order))%Z /\
  (Z.of_N (dec_coeff (Order.total_price sample_order)) *
     10 ^ (dec_exp (Order.total_price sample_order) + 2) < 10 ^ 10)%Z.
Proof. apply (order_total_price_bound sample_db (MOrder, 1%Z)). vm_compute. reflexivity. Defined.

Lemma order_item_clean_quantity_witness :
  full_clean sample_db (MOrderItem, 2%Z) (existT MOrderItem (OrderItem.create 1 1 0 sample_price)) = true.
Proof.
  apply (proj2 (order_item_clean_quantity sample_db (MOrderItem, 2%Z) (OrderItem.create 1 1 0 sample_price)
                  ltac:(eexists; vm_compute; reflexivity) ltac:(eexists; vm_compute; reflexivity)
                  ltac:(vm_compute; reflexivity))).
  simpl. unfold int_min, int_max. lia.
Defined.

Lemma inventory_item_discrepancy_unchecked_witness :
  full_clean sample_db (MInventoryItem, 1%Z)
    (existT MInventoryItem (InventoryItem.mk 1 1 10 (Some 7%Z) true false None 0 0)) = true.
Proof.
  apply inventory_item_discrepancy_unchecked;
    [eexists; vm_compute; reflexivity | eexists; vm_compute; reflexivity
    | reflexivity | reflexivity | lia].
Defined.
